(** * Image-feature-extraction-workshop: [image_generator.py]

    A shallow embedding of [NovaCanvasImageGenerator] and [main], and the
    properties of the batch runner stated over it.

    Modelling boundary.
    - The remote endpoint, JSON parsing of the response body, base64
      decoding, the file system, client construction and the keyboard are
      the environment: a record of oracles ([Env]) whose answers may depend
      on everything that happened before (the trace of events).
    - Python exceptions are the instances of [Exception], the class that the
      program's two [except Exception] clauses catch.
    - Console output ([print]) and console input ([input]) do not fail; a
      printed line is recorded by its tag and interpolated values, not by its
      formatted text.
    - Strings are byte strings holding UTF-8 text; the prompts and file names
      of the program are ASCII.
    - A file is identified by the path given to [open]: the store maps path
      strings to contents and resolves neither [.] and [..] nor links nor
      letter case. *)

From Stdlib Require Import Floats ZArith.
From stdpp Require Import gmap strings list.

Open Scope string_scope.
Open Scope list_scope.

(** ** Python values that cross the program's boundary *)

Abbreviation bytes := (list Byte.byte).

(** An instance of Python's [Exception]: its class name and [str(e)]. *)
Record exn := PyExc { exc_class : string; exc_str : string }.

(** What [json.dumps] takes and [json.loads] gives.  A [dict] keeps its
    insertion order, so it is an association list. *)
#[warnings="-register-all"]
Inductive json :=
| JNull
| JBool (b : bool)
| JInt (z : Z)
| JFloat (f : float)
| JStr (s : string)
| JArr (items : list json)
| JObj (fields : list (string * json)).

(** [d[k]] on a dict. *)
Fixpoint dict_get (k : string) (d : list (string * json)) : option json :=
  match d with
  | [] => None
  | (k', v) :: d' => if String.eqb k k' then Some v else dict_get k d'
  end.

(** [d[k] = v] on a dict: an existing key keeps its position, a new key goes
    last. *)
Fixpoint dict_set (k : string) (v : json) (d : list (string * json))
  : list (string * json) :=
  match d with
  | [] => [(k, v)]
  | (k', v') :: d' =>
      if String.eqb k k' then (k', v) :: d' else (k', v') :: dict_set k v d'
  end.

(** [d[k1][k2] = v], as in [request_body["imageGenerationConfig"]["seed"] = seed]:
    the inner dict is shared with the outer one, so the update shows through
    [d].  The program only does this on a key holding a dict. *)
Fixpoint dict_set_in (k1 k2 : string) (v : json) (d : list (string * json))
  : list (string * json) :=
  match d with
  | [] => []
  | (k', v') :: d' =>
      if String.eqb k1 k' then
        match v' with
        | JObj inner => (k', JObj (dict_set k2 v inner)) :: d'
        | _ => (k', v') :: d'
        end
      else (k', v') :: dict_set_in k1 k2 v d'
  end.

(** [s1 in s2] on two [str]. *)
Fixpoint str_contains (needle hay : string) : bool :=
  String.prefix needle hay
  || match hay with
     | EmptyString => false
     | String _ hay' => str_contains needle hay'
     end.

(** [s[:n]]. *)
Definition str_take (n : nat) (s : string) : string := String.substring 0 n s.

(** The 29 characters for which Python's [str.isspace] holds, each by the
    bytes of its UTF-8 encoding: the ASCII ones (tab to carriage return, the
    four separators, the space), U+0085, U+00A0, U+1680, U+2000 to U+200A,
    U+2028, U+2029, U+202F, U+205F and U+3000. *)
Definition whitespace_bytes : list (list nat) :=
  [ [9]; [10]; [11]; [12]; [13]; [28]; [29]; [30]; [31]; [32];
    [194; 133]; [194; 160]; [225; 154; 128];
    [226; 128; 128]; [226; 128; 129]; [226; 128; 130]; [226; 128; 131];
    [226; 128; 132]; [226; 128; 133]; [226; 128; 134]; [226; 128; 135];
    [226; 128; 136]; [226; 128; 137]; [226; 128; 138];
    [226; 128; 168]; [226; 128; 169]; [226; 128; 175];
    [226; 129; 159]; [227; 128; 128] ].

Definition of_bytes (codes : list nat) : string :=
  String.string_of_list_ascii (map Ascii.ascii_of_nat codes).

Definition whitespace : list string := map of_bytes whitespace_bytes.

(** [s] without its prefix [p], when it starts with [p]. *)
Fixpoint drop_prefix (p s : string) : option string :=
  match p with
  | EmptyString => Some s
  | String a p' =>
      match s with
      | EmptyString => None
      | String b s' => if Ascii.eqb a b then drop_prefix p' s' else None
      end
  end.

(** [s] without the first of [spaces] it starts with, if there is one. *)
Fixpoint drop_space (spaces : list string) (s : string) : option string :=
  match spaces with
  | [] => None
  | space :: spaces' =>
      match drop_prefix space s with
      | Some s' => Some s'
      | None => drop_space spaces' s
      end
  end.

(** Leading characters of [spaces] removed, one at a time; a string of [n]
    bytes has at most [n] of them. *)
Fixpoint lstrip_with (spaces : list string) (n : nat) (s : string) : string :=
  match n with
  | 0 => s
  | S n' =>
      match drop_space spaces s with
      | Some s' => lstrip_with spaces n' s'
      | None => s
      end
  end.

Definition lstrip (s : string) : string :=
  lstrip_with whitespace (String.length s) s.

(** The same from the end: on the reversed string, with each character's
    bytes reversed. *)
Definition rstrip (s : string) : string :=
  String.rev
    (lstrip_with (map String.rev whitespace) (String.length s) (String.rev s)).

(** [s.strip()]. *)
Definition strip (s : string) : string := rstrip (lstrip s).

(** [os.path.join(a, b)] (posixpath). *)
Definition os_path_join (a b : string) : string :=
  if String.prefix "/" b then b
  else if String.eqb a "" || String.prefix "/" (String.rev a) then a +:+ b
  else a +:+ "/" +:+ b.

(** ** The console, the trace and the world *)

(** The lines the program prints, by the statement that prints them. *)
Inductive Line :=
| LnGenerating (filename : string)
| LnPrompt (prompt100 : string)
| LnSaved (output_path : string)
| LnNoImage (filename : string)
| LnError (filename : string) (reason : string)
| LnStarting (count : nat)
| LnOutputDir (dir : string)
| LnRule (width : nat)
| LnProgress (i total : nat) (description : string)
| LnWaiting (seconds : Z)
| LnBlankRule (width : nat)
| LnComplete
| LnSuccessful (count : nat)
| LnFailed (count : nat)
| LnSavedIn (dir : string)
| LnTesting
| LnTestOk
| LnTestFailed
| LnTitle
| LnInitOk
| LnInitFailed (reason : string)
| LnCheckCredentials
| LnMenu (item : nat)
| LnInvalidChoice.

(** Everything the program does to the outside, in the order it does it. *)
Inductive Event :=
| EvPrint (l : Line)
| EvInput (prompt : string)
| EvClient (service_name region_name : string)
| EvMakedirs (path : string)
| EvInvoke (modelId : string) (body : json) (contentType : string)
| EvOpen (path : string)
| EvSleep (seconds : Z).

(** The files of the machine and the history of the run. *)
Record World := mkWorld { fs : gmap string bytes; trace : list Event }.

Definition log (e : Event) (w : World) : World :=
  mkWorld (fs w) (trace w ++ [e]).

(** ** The environment *)

(** What [invoke_model] followed by [json.loads(response['body'].read())]
    comes to. *)
Inductive invoke_result :=
| InvokeRaises (e : exn)
| BodyRaises (e : exn)
| Body (response_body : json).

(** What [with open(path, 'wb') as f: f.write(data)] comes to: the file holds
    [data]; or [open] raises and nothing is created or truncated; or the file
    is created or truncated and then the write or the close raises, leaving
    [kept] in it. *)
Inductive write_result :=
| Written
| OpenRaises (e : exn)
| WriteRaises (e : exn) (kept : bytes).

Record Env := mkEnv {
  boto3_client : list Event -> string -> string -> option exn;
  os_makedirs : list Event -> string -> option exn;
  invoke_model : list Event -> string -> json -> string -> invoke_result;
  b64decode : string -> exn + bytes;
  open_write : list Event -> string -> bytes -> write_result;
  input : list Event -> string -> string
}.

(** ** Computations: state and exceptions *)

Inductive result (A : Type) :=
| Ret (a : A)
| Raise (e : exn).
Arguments Ret {A} a.
Arguments Raise {A} e.

Definition M (A : Type) : Type := World -> result A * World.

Definition ret {A} (a : A) : M A := fun w => (Ret a, w).

Definition raise {A} (e : exn) : M A := fun w => (Raise e, w).

Definition bind {A B} (m : M A) (k : A -> M B) : M B :=
  fun w =>
    match m w with
    | (Ret a, w') => k a w'
    | (Raise e, w') => (Raise e, w')
    end.

(** [try: body except Exception as e: handler(e)]. *)
Definition try_except {A} (body : M A) (handler : exn -> M A) : M A :=
  fun w =>
    match body w with
    | (Ret a, w') => (Ret a, w')
    | (Raise e, w') => handler e w'
    end.

Declare Scope py_scope.
Delimit Scope py_scope with py.
Notation "x <- c1 ;; c2" := (bind c1 (fun x => c2))
  (at level 100, c1 at next level, right associativity) : py_scope.
Notation "c1 ;; c2" := (bind c1 (fun _ => c2))
  (at level 100, right associativity) : py_scope.
Open Scope py_scope.

Definition print (l : Line) : M unit :=
  fun w => (Ret tt, log (EvPrint l) w).

Definition lift {A} (r : result A) : M A := fun w => (r, w).

(** ** Operations on parsed JSON, with the exceptions Python raises *)

Definition TypeError (msg : string) : exn := PyExc "TypeError" msg.
Definition KeyError (msg : string) : exn := PyExc "KeyError" msg.
Definition IndexError (msg : string) : exn := PyExc "IndexError" msg.
Definition ValueError (msg : string) : exn := PyExc "ValueError" msg.

(** ['k' in v]: key of a dict, element of a list, substring of a str. *)
Definition py_in (k : string) (v : json) : result bool :=
  match v with
  | JObj d => Ret (match dict_get k d with Some _ => true | None => false end)
  | JArr items =>
      Ret (existsb (fun x => match x with
                             | JStr s => String.eqb k s
                             | _ => false
                             end) items)
  | JStr s => Ret (str_contains k s)
  | _ => Raise (TypeError "argument is not iterable")
  end.

(** [v['k']]. *)
Definition py_getitem (v : json) (k : string) : result json :=
  match v with
  | JObj d =>
      match dict_get k d with
      | Some x => Ret x
      | None => Raise (KeyError k)
      end
  | JArr _ => Raise (TypeError "list indices must be integers or slices, not str")
  | JStr _ => Raise (TypeError "string indices must be integers, not 'str'")
  | _ => Raise (TypeError "object is not subscriptable")
  end.

(** [len(v)]. *)
Definition py_len (v : json) : result nat :=
  match v with
  | JArr items => Ret (length items)
  | JStr s => Ret (String.length s)
  | JObj d => Ret (length d)
  | _ => Raise (TypeError "object has no len()")
  end.

(** [v[0]]. *)
Definition py_getitem0 (v : json) : result json :=
  match v with
  | JArr (x :: _) => Ret x
  | JArr [] => Raise (IndexError "list index out of range")
  | JStr (String c _) => Ret (JStr (String c EmptyString))
  | JStr EmptyString => Raise (IndexError "string index out of range")
  | JObj _ => Raise (KeyError "0")
  | _ => Raise (TypeError "object is not subscriptable")
  end.

(** [if result:] on what [generate_image] returns: a path or [None]. *)
Definition truthy (r : option string) : bool :=
  match r with
  | Some s => negb (String.eqb s "")
  | None => false
  end.

(** ** The data model of the batch *)

(** One entry of the job list: the dict literals of lines 90-139. *)
Record PromptData := mkPromptData {
  filename : string;
  prompt : string;
  description : string
}.

(** The local [prompts] of [generate_workshop_images]. *)
Definition prompts : list PromptData := [
  mkPromptData "01_basic_white_tshirt"
    "A clean white cotton t-shirt on a plain white background, front view, no wrinkles, studio lighting, product photography style, minimalist, high resolution"
    "Basic solid color t-shirt";
  mkPromptData "02_striped_longsleeve"
    "A navy blue and white horizontal striped long-sleeve shirt, crew neck, regular fit, laid flat on white background, professional product photo, even lighting"
    "Striped long-sleeve shirt";
  mkPromptData "03_checkered_buttonup"
    "A red and black checkered flannel button-up shirt, classic collar, long sleeves, regular fit, hanging on white background, studio photography"
    "Checkered button-up shirt";
  mkPromptData "04_oversized_hoodie"
    "An oversized gray hoodie sweatshirt with hood up, loose fit, kangaroo pocket, long sleeves, on plain background, casual streetwear style"
    "Oversized hoodie";
  mkPromptData "05_floral_blouse"
    "A light pink blouse with small white floral pattern, V-neck, short sleeves, fitted silhouette, on white background, feminine style, soft lighting"
    "Floral print blouse";
  mkPromptData "06_vintage_band_tshirt"
    "A black vintage-style band t-shirt with distressed graphic print, crew neck, short sleeves, slightly faded, relaxed fit, on neutral background"
    "Vintage band t-shirt";
  mkPromptData "07_formal_dress_shirt"
    "A crisp white formal dress shirt, French cuffs, spread collar, long sleeves, slim fit, pressed and neat, professional product photography"
    "Formal dress shirt";
  mkPromptData "08_crop_top"
    "A bright yellow crop top, sleeveless, scoop neckline, fitted style, modern casual wear, on clean white background, good lighting"
    "Crop top";
  mkPromptData "09_turtleneck_sweater"
    "A burgundy turtleneck sweater, long sleeves, fitted silhouette, ribbed texture, fall/winter style, on neutral background, cozy aesthetic"
    "Turtleneck sweater";
  mkPromptData "10_tiedye_tshirt"
    "A tie-dye t-shirt with rainbow spiral pattern, crew neck, short sleeves, regular fit, vibrant colors, casual hippie style, bright lighting"
    "Tie-dye t-shirt"
].

(** The attributes [__init__] sets on [self]. *)
Record Generator := mkGenerator {
  region_name : string;
  model_id : string;
  output_dir : string
}.

(** The three ways the request, parse and decode part of [generate_image]
    can end: image bytes in hand, the [else] branch, or an exception on the
    way to the [except] clause. *)
Inductive GenerationOutcome :=
| Success (image_data : bytes)
| Empty
| Failure (reason : string).

(** Lines 35-51: the dict literal, then the seed when one is given. *)
Definition build_request_body (prompt : string) (width height : Z)
    (cfg_scale : float) (seed : option Z) : list (string * json) :=
  let request_body :=
    [ ("taskType", JStr "TEXT_IMAGE");
      ("textToImageParams", JObj [ ("text", JStr prompt) ]);
      ("imageGenerationConfig",
        JObj [ ("numberOfImages", JInt 1);
               ("quality", JStr "premium");
               ("width", JInt width);
               ("height", JInt height);
               ("cfgScale", JFloat cfg_scale) ]) ] in
  match seed with
  | Some seed => dict_set_in "imageGenerationConfig" "seed" (JInt seed) request_body
  | None => request_body
  end.

(** Line 66: ['images' in response_body and len(response_body['images']) > 0]. *)
Definition has_images (response_body : json) : result bool :=
  match py_in "images" response_body with
  | Raise e => Raise e
  | Ret false => Ret false
  | Ret true =>
      match py_getitem response_body "images" with
      | Raise e => Raise e
      | Ret images =>
          match py_len images with
          | Raise e => Raise e
          | Ret n => Ret (Nat.ltb 0 n)
          end
      end
  end.

(** [f"{filename}.png"] joined to the output directory (line 71). *)
Definition output_path_of (self : Generator) (filename : string) : string :=
  os_path_join (output_dir self) (filename +:+ ".png").

Section Program.

Variable env : Env.

(** *** Effects *)

(** [input(prompt)]. *)
Definition py_input (prompt : string) : M string :=
  fun w => (Ret (input env (trace w) prompt), log (EvInput prompt) w).

(** [time.sleep(seconds)]: a negative length is refused with [ValueError]. *)
Definition time_sleep (seconds : Z) : M unit :=
  fun w =>
    if (seconds <? 0)%Z
    then (Raise (ValueError "sleep length must be non-negative"), w)
    else (Ret tt, log (EvSleep seconds) w).

(** [boto3.client(service_name=..., region_name=...)]. *)
Definition make_client (service_name region_name : string) : M unit :=
  fun w =>
    let w' := log (EvClient service_name region_name) w in
    match boto3_client env (trace w) service_name region_name with
    | Some e => (Raise e, w')
    | None => (Ret tt, w')
    end.

(** [os.makedirs(path, exist_ok=True)]. *)
Definition makedirs (path : string) : M unit :=
  fun w =>
    let w' := log (EvMakedirs path) w in
    match os_makedirs env (trace w) path with
    | Some e => (Raise e, w')
    | None => (Ret tt, w')
    end.

(** Lines 57-64: [invoke_model] and [json.loads(response['body'].read())]. *)
Definition invoke_and_load (modelId : string) (body : json)
    (contentType : string) : M json :=
  fun w =>
    let w' := log (EvInvoke modelId body contentType) w in
    match invoke_model env (trace w) modelId body contentType with
    | InvokeRaises e => (Raise e, w')
    | BodyRaises e => (Raise e, w')
    | Body response_body => (Ret response_body, w')
    end.

(** [base64.b64decode(v)]: a str is decoded, anything else JSON can hold is a
    [TypeError]. *)
Definition base64_b64decode (v : json) : result bytes :=
  match v with
  | JStr s =>
      match b64decode env s with
      | inl e => Raise e
      | inr image_data => Ret image_data
      end
  | _ => Raise (TypeError "argument should be a bytes-like object or ASCII string")
  end.

(** Line 68: [base64.b64decode(response_body['images'][0])]. *)
Definition decode_first_image (response_body : json) : result bytes :=
  match py_getitem response_body "images" with
  | Raise e => Raise e
  | Ret images =>
      match py_getitem0 images with
      | Raise e => Raise e
      | Ret first => base64_b64decode first
      end
  end.

(** Lines 72-73: [with open(output_path, 'wb') as f: f.write(image_data)]. *)
Definition write_file (output_path : string) (image_data : bytes) : M unit :=
  fun w =>
    let w' := log (EvOpen output_path) w in
    match open_write env (trace w) output_path image_data with
    | Written =>
        (Ret tt, mkWorld (<[output_path := image_data]> (fs w')) (trace w'))
    | OpenRaises e => (Raise e, w')
    | WriteRaises e kept =>
        (Raise e, mkWorld (<[output_path := kept]> (fs w')) (trace w'))
    end.

(** *** [NovaCanvasImageGenerator] *)

Definition __init__ (region_name : string) : M Generator :=
  make_client "bedrock-runtime" region_name;;
  let model_id := "amazon.nova-canvas-v1:0" in
  let output_dir := "images" in
  makedirs output_dir;;
  ret (mkGenerator region_name model_id output_dir).

Definition generate_image (self : Generator) (prompt filename : string)
    (width height : Z) (cfg_scale : float) (seed : option Z)
  : M (option string) :=
  try_except
    (let request_body :=
       build_request_body prompt width height cfg_scale seed in
     print (LnGenerating filename);;
     print (LnPrompt (str_take 100 prompt));;
     response_body <-
       invoke_and_load (model_id self) (JObj request_body) "application/json";;
     cond <- lift (has_images response_body);;
     if cond : bool then
       image_data <- lift (decode_first_image response_body);;
       let output_path := output_path_of self filename in
       write_file output_path image_data;;
       print (LnSaved output_path);;
       ret (Some output_path)
     else
       print (LnNoImage filename);;
       ret None)
    (fun e =>
       print (LnError filename (exc_str e));;
       ret None).

(** The body of the [for] loop of lines 149-166, iterated over what is left
    of the list.  [total] is [len(prompts)], [i] the index [enumerate] gives
    (from 1), and the two counters are the loop's local variables. *)
Fixpoint for_each_prompt (self : Generator) (delay_seconds : Z)
    (total i : nat) (rest : list PromptData)
    (successful_generations failed_generations : nat) : M (nat * nat) :=
  match rest with
  | [] => ret (successful_generations, failed_generations)
  | prompt_data :: rest' =>
      print (LnProgress i total (description prompt_data));;
      result <-
        generate_image self (prompt prompt_data) (filename prompt_data)
          1024 1024 8%float (Some 42%Z);;
      let successful_generations :=
        if truthy result then S successful_generations
        else successful_generations in
      let failed_generations :=
        if truthy result then failed_generations
        else S failed_generations in
      (if Nat.ltb i total then
         print (LnWaiting delay_seconds);;
         time_sleep delay_seconds
       else ret tt);;
      for_each_prompt self delay_seconds total (S i) rest'
        successful_generations failed_generations
  end.

(** Lines 142-174 of [generate_workshop_images], with the job list as a
    parameter. *)
Definition run_batch (self : Generator) (jobs : list PromptData)
    (delay_seconds : Z) : M (nat * nat) :=
  print (LnStarting (length jobs));;
  print (LnOutputDir (output_dir self));;
  print (LnRule 60);;
  counts <- for_each_prompt self delay_seconds (length jobs) 1 jobs 0 0;;
  print (LnBlankRule 60);;
  print LnComplete;;
  print (LnSuccessful (fst counts));;
  print (LnFailed (snd counts));;
  print (LnSavedIn (output_dir self));;
  ret counts.

Definition generate_workshop_images (self : Generator) (delay_seconds : Z)
  : M (nat * nat) :=
  run_batch self prompts delay_seconds.

Definition generate_single_test_image (self : Generator) : M bool :=
  print LnTesting;;
  let test_prompt :=
    "A simple red t-shirt on white background, product photography" in
  result <-
    generate_image self test_prompt "test_shirt" 1024 1024 8%float
      (Some 123%Z);;
  if truthy result then
    print LnTestOk;;
    ret true
  else
    print LnTestFailed;;
    ret false.

(** *** [main] *)

Definition choice_prompt : string :=
  String (Ascii.ascii_of_nat 10) "Enter your choice (1-3): ".

Definition continue_prompt : string :=
  "Press Enter to continue with full generation...".

Definition main : M unit :=
  print LnTitle;;
  print (LnRule 50);;
  generator <-
    try_except
      (generator <- __init__ "us-east-1";;
       print LnInitOk;;
       ret (Some generator))
      (fun e =>
         print (LnInitFailed (exc_str e));;
         print LnCheckCredentials;;
         ret None);;
  match generator with
  | None => ret tt
  | Some generator =>
      print (LnMenu 0);;
      print (LnMenu 1);;
      print (LnMenu 2);;
      print (LnMenu 3);;
      answer <- py_input choice_prompt;;
      let choice := strip answer in
      if String.eqb choice "1" then
        generate_single_test_image generator;;
        ret tt
      else if String.eqb choice "2" then
        generate_workshop_images generator 2;;
        ret tt
      else if String.eqb choice "3" then
        ok <- generate_single_test_image generator;;
        if ok : bool then
          print (LnBlankRule 50);;
          py_input continue_prompt;;
          generate_workshop_images generator 2;;
          ret tt
        else ret tt
      else
        print LnInvalidChoice
  end.

(** *** The client and the runner of the specification, read off the code *)

(** The part of [generate_image] before anything is written (lines 35-68),
    with the way it ends as a value. *)
Definition generate (self : Generator) (prompt filename : string)
    (width height : Z) (cfg_scale : float) (seed : option Z)
  : World -> GenerationOutcome * World :=
  fun w =>
    match
      (let request_body :=
         build_request_body prompt width height cfg_scale seed in
       print (LnGenerating filename);;
       print (LnPrompt (str_take 100 prompt));;
       response_body <-
         invoke_and_load (model_id self) (JObj request_body) "application/json";;
       cond <- lift (has_images response_body);;
       if cond : bool then
         image_data <- lift (decode_first_image response_body);;
         ret (Some image_data)
       else ret None) w
    with
    | (Ret (Some image_data), w') => (Success image_data, w')
    | (Ret None, w') => (Empty, w')
    | (Raise e, w') => (Failure (exc_str e), w')
    end.

(** The rest of [generate_image], by outcome: lines 71-76, line 78-79, and
    the [except] clause. *)
Definition persist (self : Generator) (filename : string)
    (outcome : GenerationOutcome) : M (option string) :=
  match outcome with
  | Success image_data =>
      try_except
        (let output_path := output_path_of self filename in
         write_file output_path image_data;;
         print (LnSaved output_path);;
         ret (Some output_path))
        (fun e =>
           print (LnError filename (exc_str e));;
           ret None)
  | Empty =>
      print (LnNoImage filename);;
      ret None
  | Failure reason =>
      print (LnError filename reason);;
      ret None
  end.

End Program.

(** ** Reading a trace *)

(** The bodies sent to the endpoint, in order. *)
Definition calls (tr : list Event) : list json :=
  omap (fun e => match e with
                 | EvInvoke _ body _ => Some body
                 | _ => None
                 end) tr.

(** The paths opened for writing, in order. *)
Definition opens (tr : list Event) : list string :=
  omap (fun e => match e with
                 | EvOpen path => Some path
                 | _ => None
                 end) tr.

(** Remote calls and pauses, in order. *)
Definition pacing (tr : list Event) : list (json + Z) :=
  omap (fun e => match e with
                 | EvInvoke _ body _ => Some (inl body)
                 | EvSleep seconds => Some (inr seconds)
                 | _ => None
                 end) tr.

(** The jobs taken up, in order: the output name announced on line 53 and
    the body sent on line 57. *)
Definition started (tr : list Event) : list (string + json) :=
  omap (fun e => match e with
                 | EvPrint (LnGenerating filename) => Some (inl filename)
                 | EvInvoke _ body _ => Some (inr body)
                 | _ => None
                 end) tr.

(** The prompt text inside a request body. *)
Definition prompt_of_body (body : json) : option string :=
  match body with
  | JObj d =>
      match dict_get "textToImageParams" d with
      | Some (JObj params) =>
          match dict_get "text" params with
          | Some (JStr text) => Some text
          | _ => None
          end
      | _ => None
      end
  | _ => None
  end.

(** The body the batch loop sends for a job (lines 152-156). *)
Definition request_of (job : PromptData) : json :=
  JObj (build_request_body (prompt job) 1024 1024 8%float (Some 42%Z)).

(** Calls separated by a pause of [seconds]: one pause between two
    consecutive calls, none after the last. *)
Fixpoint paced (seconds : Z) (bodies : list json) : list (json + Z) :=
  match bodies with
  | [] => []
  | body :: rest =>
      match rest with
      | [] => [inl body]
      | _ :: _ => inl body :: inr seconds :: paced seconds rest
      end
  end.

(** What the events after the remote call of one [generate_image] can be. *)
Definition after_call (e : Event) : bool :=
  match e with
  | EvPrint (LnSaved _) | EvPrint (LnNoImage _) | EvPrint (LnError _ _)
  | EvOpen _ => true
  | _ => false
  end.

(** ** Test doubles for the environment *)

Definition no_exn {A B : Type} : A -> B -> option exn := fun _ _ => None.

(** [base64.b64decode] on the one encoded payload the examples use. *)
Definition stub_b64decode (s : string) : exn + bytes :=
  if String.eqb s "AA==" then inr [Byte.x00]
  else inl (PyExc "binascii.Error" "Incorrect padding").

(** An environment whose endpoint answers by request body, whose disk
    answers by path, and whose user always types [typed]. *)
Definition stub_env (respond : json -> invoke_result)
    (disk : string -> write_result) (typed : string) : Env :=
  mkEnv (fun _ _ _ => None) (fun _ _ => None)
        (fun _ _ body _ => respond body)
        stub_b64decode
        (fun _ path _ => disk path)
        (fun _ _ => typed).

Definition one_image : json := JObj [ ("images", JArr [ JStr "AA==" ]) ].
Definition no_images : json := JObj [ ("images", JArr []) ].

(** The endpoint always raises. *)
Definition always_raises : json -> invoke_result :=
  fun _ => InvokeRaises (PyExc "ClientError" "AccessDeniedException").

(** The endpoint always answers [{images: []}]. *)
Definition always_empty : json -> invoke_result := fun _ => Body no_images.

(** The endpoint always answers one image. *)
Definition always_one_image : json -> invoke_result := fun _ => Body one_image.

(** One image for prompt ["x"], an empty list for anything else. *)
Definition image_for_x : json -> invoke_result :=
  fun body =>
    match prompt_of_body body with
    | Some "x" => Body one_image
    | _ => Body no_images
    end.

Definition good_disk : string -> write_result := fun _ => Written.

Definition read_only_disk : string -> write_result :=
  fun _ => OpenRaises (PyExc "PermissionError" "Permission denied").

Definition full_disk : string -> write_result :=
  fun _ => WriteRaises (PyExc "OSError" "No space left on device") [].

Definition the_generator : Generator :=
  mkGenerator "us-east-1" "amazon.nova-canvas-v1:0" "images".

Definition empty_world : World := mkWorld ∅ [].

Definition three_jobs : list PromptData :=
  [ mkPromptData "a" "x" "first";
    mkPromptData "b" "y" "second";
    mkPromptData "c" "z" "third" ].

Definition two_jobs : list PromptData :=
  [ mkPromptData "a" "x" "first"; mkPromptData "b" "y" "second" ].

(** The outcome as a function of what the endpoint answered: the three ways
    through lines 57-68. *)
Definition outcome_of (env : Env) (answer : invoke_result) : GenerationOutcome :=
  match answer with
  | InvokeRaises e => Failure (exc_str e)
  | BodyRaises e => Failure (exc_str e)
  | Body response_body =>
      match has_images response_body with
      | Raise e => Failure (exc_str e)
      | Ret false => Empty
      | Ret true =>
          match decode_first_image env response_body with
          | Raise e => Failure (exc_str e)
          | Ret image_data => Success image_data
          end
      end
  end.

(** The events of one [generate_image] up to and including the remote call. *)
Definition call_events (self : Generator) (prompt filename : string)
    (body : json) : list Event :=
  [ EvPrint (LnGenerating filename);
    EvPrint (LnPrompt (str_take 100 prompt));
    EvInvoke (model_id self) body "application/json" ].

(** What the endpoint answers to the call [generate_image] makes from [w]. *)
Definition answer_at (env : Env) (self : Generator) (prompt filename : string)
    (body : json) (w : World) : invoke_result :=
  invoke_model env
    (trace w ++ [ EvPrint (LnGenerating filename);
                  EvPrint (LnPrompt (str_take 100 prompt)) ])
    (model_id self) body "application/json".

(** An environment in which no request ever ends with image bytes in hand. *)
Definition never_succeeds (env : Env) : Prop :=
  forall history modelId body contentType image_data,
    outcome_of env (invoke_model env history modelId body contentType)
    <> Success image_data.

(** The jobs a batch must take up, as [started] shows them. *)
Definition job_starts (jobs : list PromptData) : list (string + json) :=
  flat_map (fun job => [inl (filename job); inr (request_of job)]) jobs.

(** The pauses among calls and pauses. *)
Definition pauses (schedule : list (json + Z)) : list Z :=
  omap (fun x => match x with
                 | inr seconds => Some seconds
                 | inl _ => None
                 end) schedule.

(** The endpoint raises on every call. *)
Definition always_raising (env : Env) : Prop :=
  forall history modelId body contentType,
    exists e, invoke_model env history modelId body contentType = InvokeRaises e.

(** The endpoint answers every call with [answer]. *)
Definition always_answers (env : Env) (answer : json) : Prop :=
  forall history modelId body contentType,
    invoke_model env history modelId body contentType = Body answer.

(** The prompt and the body of the test request (lines 180-185). *)
Definition test_prompt : string :=
  "A simple red t-shirt on white background, product photography".

Definition test_request : json :=
  JObj (build_request_body test_prompt 1024 1024 8%float (Some 123%Z)).

(** What [main] does before it constructs the generator, and what it has
    done when it asks for the choice, if the construction went well. *)
Definition startup_events : list Event :=
  [ EvPrint LnTitle; EvPrint (LnRule 50) ].

Definition menu_events : list Event :=
  startup_events
  ++ [ EvClient "bedrock-runtime" "us-east-1"; EvMakedirs "images";
       EvPrint LnInitOk;
       EvPrint (LnMenu 0); EvPrint (LnMenu 1); EvPrint (LnMenu 2);
       EvPrint (LnMenu 3) ].

(** How the construction of the client goes in a run of [main] from [w]. *)
Definition client_answer (env : Env) (w : World) : option exn :=
  boto3_client env (trace w ++ startup_events) "bedrock-runtime" "us-east-1".

Definition makedirs_answer (env : Env) (w : World) : option exn :=
  os_makedirs env
    (trace w ++ startup_events ++ [ EvClient "bedrock-runtime" "us-east-1" ])
    "images".

(** The choice [main] reads in a run from [w], and the world it is in once
    it has read it. *)
Definition choice_at (env : Env) (w : World) : string :=
  strip (input env (trace w ++ menu_events) choice_prompt).

Definition at_choice (w : World) : World :=
  mkWorld (fs w) (trace w ++ menu_events ++ [ EvInput choice_prompt ]).

(** A run of [main] from [w] that constructs its generator and reads
    [choice]. *)
Definition chooses (env : Env) (w : World) (choice : string) : Prop :=
  client_answer env w = None
  /\ makedirs_answer env w = None
  /\ choice_at env w = choice.

(** The environments of the examples: the endpoint, the disk, what the user
    types. *)
Definition working_env : Env := stub_env always_one_image good_disk " 3 ".
Definition scenario_env : Env := stub_env image_for_x good_disk "2".
Definition raising_env : Env := stub_env always_raises good_disk " 3 ".
Definition empty_env : Env := stub_env always_empty good_disk "2".
Definition read_only_env : Env := stub_env always_one_image read_only_disk "1".
Definition full_disk_env : Env := stub_env always_one_image full_disk "1".


(** ** Further readings of a trace *)

(** The verdict printed for each request, in order: [true] for the line of
    line 75 (image saved), [false] for those of lines 78 and 82. *)
Definition verdicts (tr : list Event) : list bool :=
  omap (fun e => match e with
                 | EvPrint (LnSaved _) => Some true
                 | EvPrint (LnNoImage _) | EvPrint (LnError _ _) => Some false
                 | _ => None
                 end) tr.

Definition successes (vs : list bool) : nat :=
  length (List.filter (fun v => v) vs).

Definition failures (vs : list bool) : nat := length (List.filter negb vs).

(** The model id and the content type of each remote call, in order. *)
Definition targets (tr : list Event) : list (string * string) :=
  omap (fun e => match e with
                 | EvInvoke modelId _ contentType => Some (modelId, contentType)
                 | _ => None
                 end) tr.

(** The prompts shown to the user by [input], in order. *)
Definition inputs (tr : list Event) : list string :=
  omap (fun e => match e with
                 | EvInput prompt => Some prompt
                 | _ => None
                 end) tr.

(** The configuration block inside a request body, and a key of it. *)
Definition config_of_body (body : json) (key : string) : option json :=
  match body with
  | JObj d =>
      match dict_get "imageGenerationConfig" d with
      | Some (JObj config) => dict_get key config
      | _ => None
      end
  | _ => None
  end.

(** The file a job's image goes to. *)
Definition job_path (self : Generator) (job : PromptData) : string :=
  output_path_of self (filename job).

(** What the batch prints before its first job and after its last (lines
    142-144 and 168-172). *)
Definition batch_header (self : Generator) (jobs : list PromptData)
  : list Event :=
  [ EvPrint (LnStarting (length jobs));
    EvPrint (LnOutputDir (output_dir self));
    EvPrint (LnRule 60) ].

Definition batch_footer (self : Generator) (succeeded failed : nat)
  : list Event :=
  [ EvPrint (LnBlankRule 60); EvPrint LnComplete;
    EvPrint (LnSuccessful succeeded); EvPrint (LnFailed failed);
    EvPrint (LnSavedIn (output_dir self)) ].

(** [None], [true], [false], a number: what JSON can hold that has neither
    members nor a length. *)
Definition is_scalar (v : json) : bool :=
  match v with
  | JNull | JBool _ | JInt _ | JFloat _ => true
  | JStr _ | JArr _ | JObj _ => false
  end.

Definition is_str (v : json) : bool :=
  match v with
  | JStr _ => true
  | _ => false
  end.

(** More environments for the examples. *)
Definition invalid_choice_env : Env := stub_env always_one_image good_disk "9".

(** The answer 1 followed by a no-break space (U+00A0, two bytes in UTF-8),
    which [str.strip] removes. *)
Definition no_break_space_env : Env :=
  stub_env always_one_image good_disk (of_bytes [49; 194; 160]).
Definition mode_one_env : Env := stub_env always_one_image good_disk "1 ".
Definition mode_two_env : Env := stub_env always_one_image good_disk "2".

Definition no_images_key : json := JObj [ ("error", JStr "throttled") ].
Definition two_images : json :=
  JObj [ ("images", JArr [ JStr "AA=="; JStr "not base64" ]) ].
Definition number_for_image : json := JObj [ ("images", JArr [ JInt 7 ]) ].

Definition missing_key_env : Env :=
  stub_env (fun _ => Body no_images_key) good_disk "1".
Definition two_images_env : Env :=
  stub_env (fun _ => Body two_images) good_disk "1".
Definition null_body_env : Env :=
  stub_env (fun _ => Body JNull) good_disk "1".
Definition number_for_image_env : Env :=
  stub_env (fun _ => Body number_for_image) good_disk "1".

(** The files a workshop run can write: the output paths of [prompts] under
    the directory [images]. *)
Definition workshop_files : list string :=
  [ "images/01_basic_white_tshirt.png"; "images/02_striped_longsleeve.png";
    "images/03_checkered_buttonup.png"; "images/04_oversized_hoodie.png";
    "images/05_floral_blouse.png"; "images/06_vintage_band_tshirt.png";
    "images/07_formal_dress_shirt.png"; "images/08_crop_top.png";
    "images/09_turtleneck_sweater.png"; "images/10_tiedye_tshirt.png" ].

(** * Properties *)

Section Properties.

Variable env : Env.

(** ** One request *)

Lemma generate_eq self prompt filename width height cfg_scale seed w :
  let body := JObj (build_request_body prompt width height cfg_scale seed) in
  generate env self prompt filename width height cfg_scale seed w =
  (outcome_of env (answer_at env self prompt filename body w),
   mkWorld (fs w) (trace w ++ call_events self prompt filename body)).
Proof.
  intros body. unfold generate, answer_at, call_events.
  fold body. generalize body. clear body. intros body.
  unfold bind, print, invoke_and_load, lift, ret, log. cbn [trace fs].
  rewrite <- !app_assoc. cbn [app].
  destruct (invoke_model env _ _ _ _) as [e|e|response_body]; cbn [outcome_of];
    try reflexivity.
  destruct (has_images response_body) as [[|]|e]; try reflexivity.
  destruct (decode_first_image env response_body); reflexivity.
Qed.

Lemma generate_image_eq self prompt filename width height cfg_scale seed w :
  generate_image env self prompt filename width height cfg_scale seed w =
  persist env self filename
    (fst (generate env self prompt filename width height cfg_scale seed w))
    (snd (generate env self prompt filename width height cfg_scale seed w)).
Proof.
  unfold generate_image, generate, persist, try_except.
  generalize (JObj (build_request_body prompt width height cfg_scale seed)).
  intros body.
  unfold bind, print, invoke_and_load, lift, ret. cbn [trace fs].
  destruct (invoke_model env _ _ _ _) as [e|e|response_body]; try reflexivity.
  destruct (has_images response_body) as [[|]|e]; try reflexivity.
  destruct (decode_first_image env response_body) as [image_data|e];
    reflexivity.
Qed.

Lemma persist_success self filename image_data w :
  let path := output_path_of self filename in
  persist env self filename (Success image_data) w =
  match open_write env (trace w) path image_data with
  | Written =>
      (Ret (Some path),
       mkWorld (<[path := image_data]> (fs w))
               (trace w ++ [EvOpen path; EvPrint (LnSaved path)]))
  | OpenRaises e =>
      (Ret None,
       mkWorld (fs w)
               (trace w ++ [EvOpen path; EvPrint (LnError filename (exc_str e))]))
  | WriteRaises e kept =>
      (Ret None,
       mkWorld (<[path := kept]> (fs w))
               (trace w ++ [EvOpen path; EvPrint (LnError filename (exc_str e))]))
  end.
Proof.
  intros path. unfold persist, try_except, bind, write_file, print, ret, log.
  fold path. cbn [trace fs].
  destruct (open_write env (trace w) path image_data);
    cbn [trace fs]; rewrite <- !app_assoc; reflexivity.
Qed.

Lemma persist_empty self filename w :
  persist env self filename Empty w =
  (Ret None, mkWorld (fs w) (trace w ++ [EvPrint (LnNoImage filename)])).
Proof. reflexivity. Qed.

Lemma persist_failure self filename reason w :
  persist env self filename (Failure reason) w =
  (Ret None, mkWorld (fs w) (trace w ++ [EvPrint (LnError filename reason)])).
Proof. reflexivity. Qed.


Lemma generate_image_persist self prompt filename width height cfg_scale seed w :
  let body := JObj (build_request_body prompt width height cfg_scale seed) in
  generate_image env self prompt filename width height cfg_scale seed w =
  persist env self filename
    (outcome_of env (answer_at env self prompt filename body w))
    (mkWorld (fs w) (trace w ++ call_events self prompt filename body)).
Proof.
  intros body. rewrite generate_image_eq.
  pose proof (generate_eq self prompt filename width height cfg_scale seed w)
    as Hgen.
  cbv zeta in Hgen. fold body in Hgen. rewrite Hgen. reflexivity.
Qed.

Lemma generate_image_run self prompt filename width height cfg_scale seed w :
  let body := JObj (build_request_body prompt width height cfg_scale seed) in
  exists result fs' tail,
    generate_image env self prompt filename width height cfg_scale seed w =
      (Ret result,
       mkWorld fs' (trace w ++ call_events self prompt filename body ++ tail))
    /\ forallb after_call tail = true
    /\ (never_succeeds env -> result = None /\ fs' = fs w /\ opens tail = []).
Proof.
  intros body. rewrite generate_image_persist. fold body.
  unfold answer_at.
  set (answer := invoke_model env _ _ _ _).
  pose proof (fun H : never_succeeds env =>
                H _ _ _ _ : forall d, outcome_of env answer <> Success d) as Hns.
  destruct (outcome_of env answer) as [image_data| |reason].
  - rewrite persist_success. cbn [trace fs].
    set (path := output_path_of self filename).
    destruct (open_write env _ path image_data) as [|e|e kept];
      eexists _, _, _; rewrite <- app_assoc;
      (split; [reflexivity|]); (split; [reflexivity|]);
      intros H; exfalso; exact (Hns H image_data eq_refl).
  - rewrite persist_empty. cbn [trace fs].
    eexists _, _, _; rewrite <- app_assoc.
    split; [reflexivity|]. split; [reflexivity|]. intros _. repeat split.
  - rewrite persist_failure. cbn [trace fs].
    eexists _, _, _; rewrite <- app_assoc.
    split; [reflexivity|]. split; [reflexivity|]. intros _. repeat split.
Qed.

(** ** Reading the events of one request *)

Lemma after_call_silent (tail : list Event) :
  forallb after_call tail = true ->
  calls tail = [] /\ pacing tail = [] /\ started tail = [].
Proof.
  induction tail as [|e tail IH]; [repeat split|].
  cbn [forallb]. intros H. apply andb_prop in H as [He Htail].
  destruct (IH Htail) as (Hc & Hp & Hs).
  unfold calls, pacing, started in *.
  destruct e as [l| | | | | |]; try discriminate He;
    [destruct l; try discriminate He|]; cbn; rewrite ?Hc, ?Hp, ?Hs; repeat split.
Qed.

Lemma calls_app (tr1 tr2 : list Event) : calls (tr1 ++ tr2) = calls tr1 ++ calls tr2.
Proof. apply omap_app. Qed.

Lemma pacing_app (tr1 tr2 : list Event) :
  pacing (tr1 ++ tr2) = pacing tr1 ++ pacing tr2.
Proof. apply omap_app. Qed.

Lemma started_app (tr1 tr2 : list Event) :
  started (tr1 ++ tr2) = started tr1 ++ started tr2.
Proof. apply omap_app. Qed.

Lemma opens_app (tr1 tr2 : list Event) : opens (tr1 ++ tr2) = opens tr1 ++ opens tr2.
Proof. apply omap_app. Qed.


(** ** The loop *)

Lemma bind_print {A} (l : Line) (k : unit -> M A) (w : World) :
  bind (print l) k w = k tt (log (EvPrint l) w).
Proof. reflexivity. Qed.

Lemma bind_returns {A B} (m : M A) (k : A -> M B) (w w' : World) (a : A) :
  m w = (Ret a, w') -> bind m k w = k a w'.
Proof. intros H. unfold bind. rewrite H. reflexivity. Qed.

Lemma time_sleep_returns (seconds : Z) (w : World) :
  (0 <= seconds)%Z ->
  time_sleep seconds w = (Ret tt, log (EvSleep seconds) w).
Proof.
  intros H. unfold time_sleep.
  destruct (Z.ltb_spec seconds 0); [lia | reflexivity].
Qed.

Lemma pause_returns (seconds : Z) (w : World) :
  (0 <= seconds)%Z ->
  (print (LnWaiting seconds);; time_sleep seconds) w =
  (Ret tt, log (EvSleep seconds) (log (EvPrint (LnWaiting seconds)) w)).
Proof.
  intros H. rewrite bind_print. apply time_sleep_returns, H.
Qed.

Lemma paced_cons (seconds : Z) (body : json) (rest : list json) :
  rest <> [] ->
  paced seconds (body :: rest) = inl body :: inr seconds :: paced seconds rest.
Proof. destruct rest; [congruence | reflexivity]. Qed.

Lemma for_each_prompt_run self delay_seconds total :
  (0 <= delay_seconds)%Z ->
  forall rest i s f w,
    i + length rest = S total ->
    exists s' f' fs' evs,
      for_each_prompt env self delay_seconds total i rest s f w =
        (Ret (s', f'), mkWorld fs' (trace w ++ evs))
      /\ s' + f' = s + f + length rest
      /\ calls evs = map request_of rest
      /\ pacing evs = paced delay_seconds (map request_of rest)
      /\ started evs = job_starts rest
      /\ (never_succeeds env ->
          s' = s /\ f' = f + length rest /\ fs' = fs w /\ opens evs = []).
Proof.
  intros Hdelay rest.
  induction rest as [|job rest IH]; intros i s f w Hi.
  - exists s, f, (fs w), []. rewrite app_nil_r. destruct w.
    cbn. repeat split; lia.
  - cbn [for_each_prompt]. rewrite bind_print.
    set (w1 := log (EvPrint (LnProgress i total (description job))) w).
    destruct (generate_image_run self (prompt job) (filename job)
                1024 1024 8%float (Some 42%Z) w1)
      as (result & fs1 & tail & Hgen & Htail & Hfail).
    fold (request_of job) in Hgen.
    rewrite (bind_returns _ _ _ _ _ Hgen).
    destruct (after_call_silent tail Htail) as (Hc & Hp & Hs).
    set (s1 := if truthy result then S s else s).
    set (f1 := if truthy result then f else S f).
    assert (Hsum : s1 + f1 = S (s + f))
      by (subst s1 f1; destruct (truthy result); lia).
    cbn [length] in Hi.
    destruct (Nat.ltb_spec i total) as [Hlt|Hge].
    + rewrite (bind_returns _ _ _ _ _ (pause_returns _ _ Hdelay)).
      match goal with
      | |- context [for_each_prompt _ _ _ _ _ _ _ _ ?w3] => set (w2 := w3)
      end.
      destruct (IH (S i) s1 f1 w2 ltac:(lia))
        as (s' & f' & fs' & evs & Hrun & Hcount & Hcalls & Hpace & Hstart & Hall).
      exists s', f', fs',
        ([EvPrint (LnProgress i total (description job))]
         ++ call_events self (prompt job) (filename job) (request_of job)
         ++ tail
         ++ [EvPrint (LnWaiting delay_seconds); EvSleep delay_seconds]
         ++ evs).
      split.
      { rewrite Hrun. subst w2 w1. unfold log. cbn [trace fs].
        rewrite <- !app_assoc. reflexivity. }
      split; [cbn [length]; lia|].
      assert (Hrest : map request_of rest <> [])
        by (destruct rest; [cbn in Hi; lia | discriminate]).
      rewrite !calls_app, !pacing_app, !started_app, !opens_app.
      rewrite Hc, Hp, Hs, Hcalls, Hpace, Hstart.
      cbn [map]. rewrite (paced_cons _ _ _ Hrest).
      split; [reflexivity|]. split; [reflexivity|]. split; [reflexivity|].
      intros Hnever. destruct (Hfail Hnever) as (-> & -> & Hopen).
      destruct (Hall Hnever) as (-> & -> & -> & Hopens).
      rewrite Hopen, Hopens. subst s1 f1 w2 w1. cbn.
      repeat split; lia.
    + assert (rest = []) as ->
        by (destruct rest; [reflexivity | cbn in Hi; lia]).
      unfold bind at 1, ret at 1. cbn [for_each_prompt ret].
      exists s1, f1, fs1,
        ([EvPrint (LnProgress i total (description job))]
         ++ call_events self (prompt job) (filename job) (request_of job)
         ++ tail).
      split.
      { subst w1. unfold log. cbn [trace fs].
        rewrite <- !app_assoc. reflexivity. }
      split; [cbn [length]; lia|].
      rewrite !calls_app, !pacing_app, !started_app, !opens_app.
      rewrite Hc, Hp, Hs.
      split; [reflexivity|]. split; [reflexivity|]. split; [reflexivity|].
      intros Hnever. destruct (Hfail Hnever) as (-> & -> & Hopen).
      rewrite Hopen. subst s1 f1 w1. cbn. repeat split; lia.
Qed.


Lemma run_batch_run self jobs delay_seconds w :
  (0 <= delay_seconds)%Z ->
  exists s f fs' evs,
    run_batch env self jobs delay_seconds w =
      (Ret (s, f), mkWorld fs' (trace w ++ evs))
    /\ s + f = length jobs
    /\ calls evs = map request_of jobs
    /\ pacing evs = paced delay_seconds (map request_of jobs)
    /\ started evs = job_starts jobs
    /\ (never_succeeds env ->
        s = 0 /\ f = length jobs /\ fs' = fs w /\ opens evs = []).
Proof.
  intros Hdelay. unfold run_batch. rewrite !bind_print.
  match goal with
  | |- context [bind (for_each_prompt _ _ _ _ _ _ _ _) _ ?w0] => set (w1 := w0)
  end.
  destruct (for_each_prompt_run self delay_seconds (length jobs) Hdelay
              jobs 1 0 0 w1 eq_refl)
    as (s & f & fs' & evs & Hrun & Hcount & Hcalls & Hpace & Hstart & Hall).
  rewrite (bind_returns _ _ _ _ _ Hrun). rewrite !bind_print.
  exists s, f, fs',
    ([EvPrint (LnStarting (length jobs)); EvPrint (LnOutputDir (output_dir self));
      EvPrint (LnRule 60)]
     ++ evs
     ++ [EvPrint (LnBlankRule 60); EvPrint LnComplete;
         EvPrint (LnSuccessful s); EvPrint (LnFailed f);
         EvPrint (LnSavedIn (output_dir self))]).
  split.
  { unfold ret, log. subst w1. unfold log. cbn [trace fs fst snd].
    rewrite <- !app_assoc. reflexivity. }
  rewrite !calls_app, !pacing_app, !started_app, !opens_app.
  cbn [calls pacing started opens omap list_omap app].
  rewrite !app_nil_r.
  repeat (split; [assumption || lia|]).
  intros Hnever. destruct (Hall Hnever) as (-> & -> & -> & ->).
  subst w1. cbn. repeat split.
Qed.

(** ** Facts about the expected readings *)

Lemma paced_last (seconds : Z) (bodies : list json) :
  last (paced seconds bodies) = inl <$> last bodies.
Proof.
  induction bodies as [|body rest IH]; [reflexivity|].
  destruct rest as [|body' rest]; [reflexivity|].
  change (paced seconds (body :: body' :: rest))
    with (inl body :: inr seconds :: paced seconds (body' :: rest)).
  destruct (last (body' :: rest)) as [x|] eqn:E.
  - rewrite (last_cons body), E, !last_cons, IH. reflexivity.
  - rewrite last_cons in E. destruct (last rest); discriminate E.
Qed.

Lemma paced_pauses (seconds : Z) (bodies : list json) :
  pauses (paced seconds bodies) = replicate (length bodies - 1) seconds.
Proof.
  induction bodies as [|body rest IH]; [reflexivity|].
  destruct rest as [|body' rest]; [reflexivity|].
  change (paced seconds (body :: body' :: rest))
    with (inl body :: inr seconds :: paced seconds (body' :: rest)).
  unfold pauses in *. cbn [omap list_omap]. rewrite IH.
  cbn [length]. replace (S (S (length rest)) - 1) with (S (length rest)) by lia.
  replace (S (length rest) - 1) with (length rest) by lia. reflexivity.
Qed.

Lemma job_starts_lookup (jobs : list PromptData) (n : nat) (job : PromptData) :
  jobs !! n = Some job ->
  job_starts jobs !! (2 * n) = Some (inl (filename job))
  /\ job_starts jobs !! (2 * n + 1) = Some (inr (request_of job)).
Proof.
  revert n. induction jobs as [|j jobs IH]; intros n Hn; [discriminate|].
  destruct n as [|n].
  - injection Hn as ->. split; reflexivity.
  - replace (2 * S n) with (S (S (2 * n))) by lia.
    replace (S (S (2 * n)) + 1) with (S (S (2 * n + 1))) by lia.
    apply (IH n Hn).
Qed.

Lemma prompt_of_request (job : PromptData) :
  prompt_of_body (request_of job) = Some (prompt job).
Proof. reflexivity. Qed.

Lemma always_raising_never_succeeds : always_raising env -> never_succeeds env.
Proof.
  intros H history modelId body contentType image_data.
  destruct (H history modelId body contentType) as [e ->]. discriminate.
Qed.

Lemma no_images_never_succeeds : always_answers env no_images -> never_succeeds env.
Proof.
  intros H history modelId body contentType image_data.
  rewrite (H history modelId body contentType). discriminate.
Qed.


(** ** The batch *)

(** C1: for every batch run (any job list, any delay that is a duration, any
    behaviour of the endpoint, the decoder and the disk), [run_batch] returns,
    and the two counters it returns add up to the number of jobs. *)
Theorem run_batch_counts_every_job self jobs delay_seconds w :
  (0 <= delay_seconds)%Z ->
  exists succeeded failed w',
    run_batch env self jobs delay_seconds w = (Ret (succeeded, failed), w')
    /\ succeeded + failed = length jobs.
Proof.
  intros Hdelay.
  destruct (run_batch_run self jobs delay_seconds w Hdelay)
    as (s & f & fs' & evs & Hrun & Hcount & _).
  exists s, f, (mkWorld fs' (trace w ++ evs)). split; assumption.
Qed.

(** C2: a failing job never ends the batch early.  For every batch the runner
    makes one remote call per job, in order, whatever the calls do; and when
    every remote call raises, the result is 0 succeeded and all failed. *)
Theorem run_batch_attempts_every_job self jobs delay_seconds w :
  (0 <= delay_seconds)%Z ->
  exists succeeded failed w',
    run_batch env self jobs delay_seconds w = (Ret (succeeded, failed), w')
    /\ calls (trace w') = calls (trace w) ++ map request_of jobs
    /\ length (calls (trace w')) = length (calls (trace w)) + length jobs
    /\ (always_raising env -> succeeded = 0 /\ failed = length jobs).
Proof.
  intros Hdelay.
  destruct (run_batch_run self jobs delay_seconds w Hdelay)
    as (s & f & fs' & evs & Hrun & Hcount & Hcalls & _ & _ & Hall).
  exists s, f, (mkWorld fs' (trace w ++ evs)). cbn [trace].
  rewrite calls_app, Hcalls, length_app, length_map.
  split; [exact Hrun|]. split; [reflexivity|]. split; [reflexivity|].
  intros Hraise.
  destruct (Hall (always_raising_never_succeeds Hraise)) as (Hs & Hf & _).
  split; assumption.
Qed.

(** C5: for every batch, the pauses are exactly those between consecutive
    jobs: remote calls and pauses alternate, every pause lasts the configured
    delay, there is one pause fewer than there are jobs, and the last of them
    all is a call, not a pause.  This holds whatever the jobs' outcomes. *)
Theorem run_batch_pauses_between_jobs self jobs delay_seconds w :
  (0 <= delay_seconds)%Z ->
  exists counts w' evs,
    run_batch env self jobs delay_seconds w = (Ret counts, w')
    /\ trace w' = trace w ++ evs
    /\ pacing evs = paced delay_seconds (map request_of jobs)
    /\ pauses (pacing evs) = replicate (length jobs - 1) delay_seconds
    /\ last (pacing evs) = inl <$> last (map request_of jobs).
Proof.
  intros Hdelay.
  destruct (run_batch_run self jobs delay_seconds w Hdelay)
    as (s & f & fs' & evs & Hrun & _ & _ & Hpace & _).
  exists (s, f), (mkWorld fs' (trace w ++ evs)), evs.
  rewrite Hpace, paced_pauses, paced_last, length_map.
  repeat split. exact Hrun.
Qed.

(** C9: job order is preserved.  For every batch, the jobs taken up are the
    entries of the list, in list order: the Nth output name announced and the
    Nth body sent are those of the Nth entry, and the body carries its
    prompt.  [generate_workshop_images] runs the constant list [prompts],
    the same ten entries from whatever state it is started in. *)
Theorem run_batch_keeps_job_order self jobs delay_seconds w :
  (0 <= delay_seconds)%Z ->
  (exists counts w' evs,
      run_batch env self jobs delay_seconds w = (Ret counts, w')
      /\ trace w' = trace w ++ evs
      /\ started evs = job_starts jobs
      /\ forall n job,
          jobs !! n = Some job ->
          started evs !! (2 * n) = Some (inl (filename job))
          /\ started evs !! (2 * n + 1) = Some (inr (request_of job))
          /\ prompt_of_body (request_of job) = Some (prompt job))
  /\ (exists counts w' evs,
        generate_workshop_images env self delay_seconds w = (Ret counts, w')
        /\ trace w' = trace w ++ evs
        /\ started evs = job_starts prompts
        /\ length prompts = 10).
Proof.
  intros Hdelay. split.
  - destruct (run_batch_run self jobs delay_seconds w Hdelay)
      as (s & f & fs' & evs & Hrun & _ & _ & _ & Hstart & _).
    exists (s, f), (mkWorld fs' (trace w ++ evs)), evs.
    split; [exact Hrun|]. split; [reflexivity|]. split; [exact Hstart|].
    intros n job Hjob. rewrite Hstart.
    destruct (job_starts_lookup jobs n job Hjob) as [Hname Hbody].
    split; [exact Hname|]. split; [exact Hbody|]. apply prompt_of_request.
  - unfold generate_workshop_images.
    destruct (run_batch_run self prompts delay_seconds w Hdelay)
      as (s & f & fs' & evs & Hrun & _ & _ & _ & Hstart & _).
    exists (s, f), (mkWorld fs' (trace w ++ evs)), evs.
    repeat split; assumption.
Qed.


(** ** The request payload *)

(** C6: for every request, the body built for the endpoint is exactly the
    fixed task type, the prompt text, and the configuration block with image
    count 1, quality premium, width, height and guidance scale, followed by
    the seed if and only if one was given; and this body is the one
    [generate_image] sends, in its single call. *)
Theorem request_body_is_exact prompt width height cfg_scale seed :
  build_request_body prompt width height cfg_scale seed =
    [ ("taskType", JStr "TEXT_IMAGE");
      ("textToImageParams", JObj [ ("text", JStr prompt) ]);
      ("imageGenerationConfig",
        JObj ([ ("numberOfImages", JInt 1);
                ("quality", JStr "premium");
                ("width", JInt width);
                ("height", JInt height);
                ("cfgScale", JFloat cfg_scale) ]
              ++ match seed with
                 | Some n => [ ("seed", JInt n) ]
                 | None => []
                 end)) ]
  /\ forall self filename w,
      calls (trace (snd (generate_image env self prompt filename
                           width height cfg_scale seed w)))
      = calls (trace w)
        ++ [JObj (build_request_body prompt width height cfg_scale seed)].
Proof.
  split; [destruct seed; reflexivity|].
  intros self filename w.
  destruct (generate_image_run self prompt filename width height cfg_scale
              seed w) as (result & fs' & tail & Hgen & Htail & _).
  rewrite Hgen. cbn [snd trace].
  destruct (after_call_silent tail Htail) as (Hc & _ & _).
  rewrite !calls_app, Hc, app_nil_r. reflexivity.
Qed.

(** ** An empty image list *)

Lemma generate_image_no_images self prompt filename width height cfg_scale seed w :
  let body := JObj (build_request_body prompt width height cfg_scale seed) in
  answer_at env self prompt filename body w = Body no_images ->
  fst (generate env self prompt filename width height cfg_scale seed w) = Empty
  /\ generate_image env self prompt filename width height cfg_scale seed w =
     (Ret None,
      mkWorld (fs w)
        (trace w ++ call_events self prompt filename body
                 ++ [EvPrint (LnNoImage filename)])).
Proof.
  intros body Hanswer.
  rewrite generate_image_persist. fold body.
  pose proof (generate_eq self prompt filename width height cfg_scale seed w)
    as Hgen.
  cbv zeta in Hgen. fold body in Hgen. rewrite Hgen, Hanswer.
  cbn [fst]. split; [reflexivity|].
  change (outcome_of env (Body no_images)) with Empty.
  rewrite persist_empty. cbn [fs trace]. rewrite <- app_assoc. reflexivity.
Qed.

(** C7: against an endpoint that answers [{images: []}], every request ends
    as [Empty], returns the failure marker and opens no file; the loop counts
    the job as failed; and a whole batch against that endpoint returns 0
    succeeded and all failed, with the files as they were. *)
Theorem empty_image_list_counts_as_failure self delay_seconds :
  always_answers env no_images ->
  (0 <= delay_seconds)%Z ->
  (forall prompt filename width height cfg_scale seed w,
      fst (generate env self prompt filename width height cfg_scale seed w)
      = Empty
      /\ exists w',
          generate_image env self prompt filename width height cfg_scale seed w
          = (Ret None, w')
          /\ fs w' = fs w
          /\ opens (trace w') = opens (trace w))
  /\ (forall total i job rest s f w,
        exists w1,
          fs w1 = fs w
          /\ opens (trace w1) = opens (trace w)
          /\ for_each_prompt env self delay_seconds total i (job :: rest) s f w
             = ((if Nat.ltb i total then
                   print (LnWaiting delay_seconds);;
                   time_sleep delay_seconds
                 else ret tt);;
                for_each_prompt env self delay_seconds total (S i) rest
                  s (S f)) w1)
  /\ (forall jobs w,
        exists w',
          run_batch env self jobs delay_seconds w = (Ret (0, length jobs), w')
          /\ fs w' = fs w
          /\ opens (trace w') = opens (trace w)).
Proof.
  intros Hempty Hdelay. split; [|split].
  - intros prompt filename width height cfg_scale seed w.
    destruct (generate_image_no_images self prompt filename width height
                cfg_scale seed w (Hempty _ _ _ _)) as [Hout Hrun].
    split; [exact Hout|]. eexists. split; [exact Hrun|].
    cbn [fs trace]. split; [reflexivity|].
    rewrite !opens_app. cbn. apply app_nil_r.
  - intros total i job rest s f w.
    cbn [for_each_prompt]. rewrite bind_print.
    match goal with
    | |- context [bind (generate_image _ _ _ _ _ _ _ _) _ ?w0] => set (w1 := w0)
    end.
    destruct (generate_image_no_images self (prompt job) (filename job)
                1024 1024 8%float (Some 42%Z) w1 (Hempty _ _ _ _))
      as [_ Hrun].
    rewrite (bind_returns _ _ _ _ _ Hrun). cbn [truthy].
    eexists. split; [|split; [|reflexivity]].
    + reflexivity.
    + subst w1. cbn [fs trace log]. rewrite !opens_app. cbn.
      rewrite !app_nil_r. reflexivity.
  - intros jobs w.
    destruct (run_batch_run self jobs delay_seconds w Hdelay)
      as (s & f & fs' & evs & Hrun & _ & _ & _ & _ & Hall).
    destruct (Hall (no_images_never_succeeds Hempty)) as (-> & -> & -> & Hopens).
    eexists. split; [exact Hrun|]. cbn [fs trace].
    split; [reflexivity|]. rewrite opens_app, Hopens. apply app_nil_r.
Qed.


(** ** Storage *)

Lemma generate_image_cases self prompt filename width height cfg_scale seed w :
  let body := JObj (build_request_body prompt width height cfg_scale seed) in
  let w1 := mkWorld (fs w) (trace w ++ call_events self prompt filename body) in
  let path := output_path_of self filename in
  generate_image env self prompt filename width height cfg_scale seed w =
  match outcome_of env (answer_at env self prompt filename body w) with
  | Success image_data =>
      match open_write env (trace w1) path image_data with
      | Written =>
          (Ret (Some path),
           mkWorld (<[path := image_data]> (fs w))
                   (trace w1 ++ [EvOpen path; EvPrint (LnSaved path)]))
      | OpenRaises e =>
          (Ret None,
           mkWorld (fs w)
             (trace w1 ++ [EvOpen path; EvPrint (LnError filename (exc_str e))]))
      | WriteRaises e kept =>
          (Ret None,
           mkWorld (<[path := kept]> (fs w))
             (trace w1 ++ [EvOpen path; EvPrint (LnError filename (exc_str e))]))
      end
  | Empty =>
      (Ret None, mkWorld (fs w) (trace w1 ++ [EvPrint (LnNoImage filename)]))
  | Failure reason =>
      (Ret None,
       mkWorld (fs w) (trace w1 ++ [EvPrint (LnError filename reason)]))
  end.
Proof.
  intros body w1 path. rewrite generate_image_persist. fold body w1.
  destruct (outcome_of env _) as [image_data| |reason].
  - rewrite persist_success. reflexivity.
  - reflexivity.
  - reflexivity.
Qed.

Lemma opens_call_events self prompt filename body (tr : list Event) :
  opens (tr ++ call_events self prompt filename body) = opens tr.
Proof. rewrite opens_app. cbn. apply app_nil_r. Qed.

Lemma calls_call_events self prompt filename body (tr : list Event) :
  calls (tr ++ call_events self prompt filename body) = calls tr ++ [body].
Proof. rewrite calls_app. reflexivity. Qed.

(** C3, as the code has it: [generate_image] touches storage only when the
    response decoded to image bytes, and then only the file
    [<output_dir>/<filename>.png].  With the bytes in hand, if the file can
    be opened and written it holds exactly those bytes afterwards and its
    path is returned; if [open] raises, nothing is created or modified and
    the failure marker is returned; if the write raises after the file was
    opened, the failure marker is returned.  On [Empty] or [Failure] no file
    is opened, created or modified and the failure marker is returned. *)
Theorem generate_image_writes_only_on_success
    self prompt filename width height cfg_scale seed w :
  let outcome :=
    fst (generate env self prompt filename width height cfg_scale seed w) in
  let w1 :=
    snd (generate env self prompt filename width height cfg_scale seed w) in
  let path := output_path_of self filename in
  exists result w',
    generate_image env self prompt filename width height cfg_scale seed w
    = (Ret result, w')
    /\ (forall other, other <> path -> fs w' !! other = fs w !! other)
    /\ match outcome with
       | Success image_data =>
           match open_write env (trace w1) path image_data with
           | Written =>
               result = Some path
               /\ fs w' !! path = Some image_data
               /\ opens (trace w') = opens (trace w) ++ [path]
           | OpenRaises _ => result = None /\ fs w' = fs w
           | WriteRaises _ kept => result = None /\ fs w' !! path = Some kept
           end
       | Empty | Failure _ =>
           result = None /\ fs w' = fs w /\ opens (trace w') = opens (trace w)
       end.
Proof.
  intros outcome w1 path. subst outcome w1.
  pose proof (generate_eq self prompt filename width height cfg_scale seed w)
    as Hgen. cbv zeta in Hgen. rewrite Hgen. cbn [fst snd trace].
  pose proof (generate_image_cases self prompt filename width height
                cfg_scale seed w) as Hcases. cbv zeta in Hcases.
  fold path in Hcases. rewrite Hcases. cbn [trace].
  destruct (outcome_of env _) as [image_data| |reason].
  - destruct (open_write env _ path image_data) as [|e|e kept];
      eexists _, _; (split; [reflexivity|]); cbn [fs trace].
    + split; [intros other Hother; apply lookup_insert_ne; congruence|].
      split; [reflexivity|]. split; [apply lookup_insert_eq|].
      rewrite opens_app, opens_call_events. reflexivity.
    + split; [reflexivity|]. split; reflexivity.
    + split; [intros other Hother; apply lookup_insert_ne; congruence|].
      split; [reflexivity|]. apply lookup_insert_eq.
  - eexists _, _. split; [reflexivity|]. cbn [fs trace].
    split; [reflexivity|]. split; [reflexivity|]. split; [reflexivity|].
    rewrite opens_app, opens_call_events. cbn. apply app_nil_r.
  - eexists _, _. split; [reflexivity|]. cbn [fs trace].
    split; [reflexivity|]. split; [reflexivity|]. split; [reflexivity|].
    rewrite opens_app, opens_call_events. cbn. apply app_nil_r.
Qed.

(** The whole of [generate_image], client and runner together: up to the
    decoded response it makes one remote call and no access to storage; as a
    whole it makes exactly one remote call, opens at most one file,
    [<output_dir>/<filename>.png], leaves every other file as it was, and
    leaves storage untouched whenever the response did not decode to image
    bytes. *)
Theorem generate_image_calls_once_then_persists
    self prompt filename width height cfg_scale seed w :
  let body := JObj (build_request_body prompt width height cfg_scale seed) in
  let outcome :=
    fst (generate env self prompt filename width height cfg_scale seed w) in
  let w1 :=
    snd (generate env self prompt filename width height cfg_scale seed w) in
  let path := output_path_of self filename in
  (fs w1 = fs w
   /\ calls (trace w1) = calls (trace w) ++ [body]
   /\ opens (trace w1) = opens (trace w))
  /\ exists result w',
      generate_image env self prompt filename width height cfg_scale seed w
      = (Ret result, w')
      /\ calls (trace w') = calls (trace w) ++ [body]
      /\ (forall other, other <> path -> fs w' !! other = fs w !! other)
      /\ (opens (trace w') = opens (trace w)
          \/ opens (trace w') = opens (trace w) ++ [path])
      /\ match outcome with
         | Success _ => True
         | Empty | Failure _ =>
             fs w' = fs w /\ opens (trace w') = opens (trace w)
         end.
Proof.
  intros body outcome w1 path. subst outcome w1.
  pose proof (generate_eq self prompt filename width height cfg_scale seed w)
    as Hgen. cbv zeta in Hgen. fold body in Hgen. rewrite Hgen.
  cbn [fst snd trace fs].
  split.
  { split; [reflexivity|]. split; [apply calls_call_events|].
    apply opens_call_events. }
  pose proof (generate_image_cases self prompt filename width height
                cfg_scale seed w) as Hcases. cbv zeta in Hcases.
  fold path body in Hcases. rewrite Hcases. cbn [trace].
  assert (Hsilent : forall l, calls [EvPrint l] = []) by reflexivity.
  destruct (outcome_of env _) as [image_data| |reason].
  - destruct (open_write env _ path image_data) as [|e|e kept];
      eexists _, _; (split; [reflexivity|]); cbn [fs trace];
      rewrite calls_app, opens_app, calls_call_events, opens_call_events;
      (split; [cbn; apply app_nil_r|]).
    + split; [intros other Hother; apply lookup_insert_ne; congruence|].
      split; [right; reflexivity | exact I].
    + split; [reflexivity|]. split; [right; reflexivity | exact I].
    + split; [intros other Hother; apply lookup_insert_ne; congruence|].
      split; [right; reflexivity | exact I].
  - eexists _, _. split; [reflexivity|]. cbn [fs trace].
    rewrite calls_app, opens_app, calls_call_events, opens_call_events.
    cbn. rewrite !app_nil_r. repeat split. left; reflexivity.
  - eexists _, _. split; [reflexivity|]. cbn [fs trace].
    rewrite calls_app, opens_app, calls_call_events, opens_call_events.
    cbn. rewrite !app_nil_r. repeat split. left; reflexivity.
Qed.

(** C4: the client operation, [generate], has no side effect beyond its
    single remote call.  For every request it sends exactly one body to the
    endpoint and, apart from the two console lines that announce the call,
    does nothing else: no file is opened, created or modified, nothing is
    read from the keyboard, and there is no pause.  Persistence is done by
    the runner: [generate_image] is [generate] followed by [persist]. *)
Theorem generate_does_not_write
    self prompt filename width height cfg_scale seed w :
  let body := JObj (build_request_body prompt width height cfg_scale seed) in
  let outcome :=
    fst (generate env self prompt filename width height cfg_scale seed w) in
  let w1 :=
    snd (generate env self prompt filename width height cfg_scale seed w) in
  fs w1 = fs w
  /\ trace w1
     = trace w
       ++ [ EvPrint (LnGenerating filename);
            EvPrint (LnPrompt (str_take 100 prompt));
            EvInvoke (model_id self) body "application/json" ]
  /\ calls (trace w1) = calls (trace w) ++ [body]
  /\ opens (trace w1) = opens (trace w)
  /\ inputs (trace w1) = inputs (trace w)
  /\ pauses (pacing (trace w1)) = pauses (pacing (trace w))
  /\ generate_image env self prompt filename width height cfg_scale seed w
     = persist env self filename outcome w1.
Proof.
  intros body outcome w1. subst outcome w1.
  rewrite generate_image_eq.
  pose proof (generate_eq self prompt filename width height cfg_scale seed w)
    as Hgen. cbv zeta in Hgen. fold body in Hgen. rewrite Hgen.
  cbn [fst snd trace fs]. unfold call_events, calls, opens, inputs, pacing,
    pauses.
  rewrite !omap_app. cbn. rewrite ?omap_app. cbn. rewrite ?app_nil_r.
  split; [reflexivity|]. split; [reflexivity|]. split; [reflexivity|].
  split; [reflexivity|]. split; [reflexivity|]. split; reflexivity.
Qed.


(** Bring a world built by successive [log]s to the form
    [mkWorld files (history ++ events)]. *)
Ltac normalize_world :=
  unfold ret, log; cbn [trace fs]; rewrite <- ?app_assoc; cbn [app];
  try reflexivity.

(** ** [main] *)

Lemma main_cases (w : World) :
  main env w =
  match client_answer env w with
  | Some e =>
      (Ret tt,
       mkWorld (fs w)
         (trace w ++ startup_events
          ++ [ EvClient "bedrock-runtime" "us-east-1";
               EvPrint (LnInitFailed (exc_str e));
               EvPrint LnCheckCredentials ]))
  | None =>
      match makedirs_answer env w with
      | Some e =>
          (Ret tt,
           mkWorld (fs w)
             (trace w ++ startup_events
              ++ [ EvClient "bedrock-runtime" "us-east-1";
                   EvMakedirs "images";
                   EvPrint (LnInitFailed (exc_str e));
                   EvPrint LnCheckCredentials ]))
      | None =>
          let choice := choice_at env w in
          if String.eqb choice "1" then
            (generate_single_test_image env the_generator;; ret tt)
              (at_choice w)
          else if String.eqb choice "2" then
            (generate_workshop_images env the_generator 2;; ret tt)
              (at_choice w)
          else if String.eqb choice "3" then
            (ok <- generate_single_test_image env the_generator;;
             if ok : bool then
               print (LnBlankRule 50);;
               py_input env continue_prompt;;
               generate_workshop_images env the_generator 2;;
               ret tt
             else ret tt) (at_choice w)
          else print LnInvalidChoice (at_choice w)
      end
  end.
Proof.
  unfold main, client_answer, makedirs_answer, choice_at, at_choice,
    menu_events, startup_events.
  rewrite !bind_print.
  unfold bind at 1. unfold try_except, __init__.
  unfold bind at 1. unfold bind at 1. unfold make_client.
  unfold log. cbn [trace fs]. rewrite <- ?app_assoc. cbn [app].
  destruct (boto3_client env _ _ _) as [e|].
  { rewrite !bind_print. normalize_world. }
  unfold bind at 1. unfold bind at 1. unfold makedirs.
  unfold log. cbn [trace fs]. rewrite <- ?app_assoc. cbn [app].
  destruct (os_makedirs env _ _) as [e|].
  { rewrite !bind_print. normalize_world. }
  unfold ret at 1. cbv beta iota. unfold print at 1. cbv beta iota.
  unfold ret at 1. cbv beta iota. rewrite !bind_print.
  unfold bind at 1. unfold py_input at 1.
  normalize_world.
  destruct (String.eqb (strip _) "1"); [reflexivity|].
  destruct (String.eqb (strip _) "2"); [reflexivity|].
  destruct (String.eqb (strip _) "3"); reflexivity.
Qed.


Lemma generate_single_test_image_run self w :
  exists result fs' tail,
    generate_single_test_image env self w =
      (Ret (truthy result),
       mkWorld fs'
         (trace w ++ [EvPrint LnTesting]
          ++ call_events self test_prompt "test_shirt" test_request
          ++ tail
          ++ [EvPrint (if truthy result then LnTestOk else LnTestFailed)]))
    /\ forallb after_call tail = true.
Proof.
  unfold generate_single_test_image. rewrite bind_print.
  destruct (generate_image_run self test_prompt "test_shirt"
              1024 1024 8%float (Some 123%Z) (log (EvPrint LnTesting) w))
    as (result & fs' & tail & Hgen & Htail & _).
  fold test_request in Hgen. fold test_prompt.
  rewrite (bind_returns _ _ _ _ _ Hgen).
  exists result, fs', tail. split; [|exact Htail].
  destruct (truthy result); rewrite bind_print; normalize_world.
Qed.

Lemma calls_at_choice (w : World) : calls (trace (at_choice w)) = calls (trace w).
Proof.
  unfold at_choice. cbn [trace]. rewrite calls_app. cbn. apply app_nil_r.
Qed.




End Properties.

(** * Concrete runs *)

(** The scenario of the specification: two jobs, an image for the first and
    an empty list for the second. *)
Example two_job_scenario :
  fst (run_batch scenario_env the_generator two_jobs 2 empty_world) = Ret (1, 1)
  /\ map_to_list (fs (snd (run_batch scenario_env the_generator two_jobs 2
                             empty_world)))
     = [("images/a.png", [Byte.x00])].
Proof. split; vm_compute; reflexivity. Qed.

(** A negative delay is not a duration: [time.sleep] refuses it, and a batch
    of two or more jobs ends with that [ValueError] after its first job. *)
Example negative_delay_raises :
  fst (run_batch working_env the_generator two_jobs (-1) empty_world)
  = Raise (ValueError "sleep length must be non-negative")
  /\ length (calls (trace (snd (run_batch working_env the_generator two_jobs
                                  (-1) empty_world)))) = 1.
Proof. split; vm_compute; reflexivity. Qed.

(** The interactive mode 3, run: eleven calls when the test succeeds, one
    when it fails. *)
Example mode_three_runs :
  length (calls (trace (snd (main working_env empty_world)))) = 11
  /\ length (calls (trace (snd (main raising_env empty_world)))) = 1
  /\ length (calls (trace (snd (main read_only_env empty_world)))) = 1.
Proof. repeat split; vm_compute; reflexivity. Qed.

(** A disk that fills up: the file is created, then the write raises. *)
Example full_disk_leaves_an_empty_file :
  fst (generate_image full_disk_env the_generator "x" "a" 1024 1024 8%float
         None empty_world) = Ret None
  /\ fs (snd (generate_image full_disk_env the_generator "x" "a" 1024 1024
                8%float None empty_world)) !! "images/a.png" = Some [].
Proof. split; vm_compute; reflexivity. Qed.

(** The runner persists: on a response with an image, [generate_image]
    creates the output file. *)
Example generate_image_writes_to_storage :
  fs empty_world !! "images/a.png" = None
  /\ fst (generate_image working_env the_generator "x" "a" 1024 1024 8%float
            None empty_world) = Ret (Some "images/a.png")
  /\ fs (snd (generate_image working_env the_generator "x" "a" 1024 1024
                8%float None empty_world)) !! "images/a.png"
     = Some [Byte.x00]
  /\ opens (trace (snd (generate_image working_env the_generator "x" "a"
                          1024 1024 8%float None empty_world)))
     = ["images/a.png"].
Proof. repeat split; vm_compute; reflexivity. Qed.

(** ** Witnesses *)

Lemma run_batch_counts_every_job_witness :
  exists succeeded failed w',
    run_batch scenario_env the_generator two_jobs 2 empty_world
    = (Ret (succeeded, failed), w')
    /\ succeeded + failed = length two_jobs.
Proof. apply run_batch_counts_every_job. lia. Defined.

Lemma run_batch_attempts_every_job_witness :
  exists w',
    run_batch raising_env the_generator three_jobs 2 empty_world
    = (Ret (0, 3), w')
    /\ length (calls (trace w')) = 3.
Proof.
  destruct (run_batch_attempts_every_job raising_env the_generator three_jobs
              2 empty_world ltac:(lia))
    as (succeeded & failed & w' & Hrun & _ & Hlen & Hall).
  destruct Hall as [-> ->].
  { intros history modelId body contentType. eexists. reflexivity. }
  exists w'. split; [exact Hrun | exact Hlen].
Defined.

Lemma run_batch_pauses_between_jobs_witness :
  exists counts w' evs,
    run_batch scenario_env the_generator three_jobs 2 empty_world
    = (Ret counts, w')
    /\ trace w' = trace empty_world ++ evs
    /\ pacing evs = paced 2 (map request_of three_jobs)
    /\ pauses (pacing evs) = replicate (length three_jobs - 1) 2%Z
    /\ last (pacing evs) = inl <$> last (map request_of three_jobs).
Proof. apply run_batch_pauses_between_jobs. lia. Defined.

Lemma run_batch_keeps_job_order_witness :
  exists counts w' evs,
    run_batch scenario_env the_generator three_jobs 2 empty_world
    = (Ret counts, w')
    /\ trace w' = trace empty_world ++ evs
    /\ started evs = job_starts three_jobs.
Proof.
  destruct (run_batch_keeps_job_order scenario_env the_generator three_jobs
              2 empty_world ltac:(lia))
    as [(counts & w' & evs & Hrun & Htrace & Hstart & _) _].
  exists counts, w', evs. repeat split; assumption.
Defined.

Lemma empty_image_list_counts_as_failure_witness :
  exists w',
    run_batch empty_env the_generator three_jobs 2 empty_world
    = (Ret (0, 3), w')
    /\ fs w' = fs empty_world
    /\ opens (trace w') = opens (trace empty_world).
Proof.
  destruct (empty_image_list_counts_as_failure empty_env the_generator 2)
    as (_ & _ & Hbatch).
  - intros history modelId body contentType. reflexivity.
  - lia.
  - apply (Hbatch three_jobs empty_world).
Defined.



(** ** Counterexamples *)

(** C3 as stated fails: the response decodes to image bytes (outcome
    [Success]), the file cannot be opened, and [generate_image] returns the
    failure marker with no file written. *)
Lemma success_outcome_without_a_file :
  fst (generate read_only_env the_generator "x" "a" 1024 1024 8%float None
         empty_world) = Success [Byte.x00]
  /\ fst (generate_image read_only_env the_generator "x" "a" 1024 1024 8%float
            None empty_world) = Ret None
  /\ fs (snd (generate_image read_only_env the_generator "x" "a" 1024 1024
                8%float None empty_world)) !! "images/a.png" = None.
Proof. repeat split; vm_compute; reflexivity. Qed.


(** * Beyond the claims *)

Ltac flatten_world :=
  unfold ret, log; cbn [trace fs]; rewrite <- ?app_assoc; cbn [app];
  try reflexivity.

(** ** Output paths *)

Lemma list_of_append (s t : string) :
  String.list_ascii_of_string (s +:+ t)
  = String.list_ascii_of_string s ++ String.list_ascii_of_string t.
Proof. induction s as [|c s IH]; [reflexivity|]. simpl. rewrite IH. reflexivity. Qed.

Lemma append_cancel_r (s1 s2 t : string) : s1 +:+ t = s2 +:+ t -> s1 = s2.
Proof.
  intros H. apply (f_equal String.list_ascii_of_string) in H.
  rewrite !list_of_append in H. apply app_inv_tail in H.
  apply (f_equal String.string_of_list_ascii) in H.
  rewrite !String.string_of_list_ascii_of_string in H. exact H.
Qed.

Lemma png_name_nonempty (name : string) : name +:+ ".png" <> "".
Proof. destruct name; discriminate. Qed.

Lemma append_nonempty (s t : string) : t <> "" -> s +:+ t <> "".
Proof. destruct s; [trivial | discriminate]. Qed.

Lemma prefix_slash_png (name : string) :
  String.prefix "/" (name +:+ ".png") = String.prefix "/" name.
Proof.
  destruct name as [|c name]; [reflexivity|].
  destruct c as [[] [] [] [] [] [] [] []]; destruct name; reflexivity.
Qed.

Lemma output_path_relative self (name : string) :
  output_dir self = "images" ->
  String.prefix "/" name = false ->
  output_path_of self name = "images/" +:+ name +:+ ".png".
Proof.
  intros Hdir Hrel. unfold output_path_of, os_path_join.
  rewrite prefix_slash_png, Hrel, Hdir. reflexivity.
Qed.

Lemma output_path_absolute self (name : string) :
  String.prefix "/" name = true ->
  output_path_of self name = name +:+ ".png".
Proof.
  intros Habs. unfold output_path_of, os_path_join.
  rewrite prefix_slash_png, Habs. reflexivity.
Qed.

Lemma output_path_nonempty self (name : string) :
  output_path_of self name <> "".
Proof.
  unfold output_path_of, os_path_join.
  destruct (String.prefix "/" _); [apply png_name_nonempty|].
  destruct (_ || _).
  - apply append_nonempty, png_name_nonempty.
  - apply append_nonempty, append_nonempty, png_name_nonempty.
Qed.

Lemma truthy_output_path self (name : string) :
  truthy (Some (output_path_of self name)) = true.
Proof.
  cbn. apply negb_true_iff, String.eqb_neq, output_path_nonempty.
Qed.

(** X1: the path handed to [open] for a job is [images/<name>.png] when the
    name is relative, and two different names never give the same path.
    (Two different paths can still name one file, as [images/a.png] and
    [images/./a.png] do; the statement is about the paths.) *)
Theorem output_paths_do_not_collide self (name1 name2 : string) :
  output_dir self = "images" ->
  (String.prefix "/" name1 = false ->
   output_path_of self name1 = "images/" +:+ name1 +:+ ".png")
  /\ (output_path_of self name1 = output_path_of self name2 -> name1 = name2).
Proof.
  intros Hdir. split; [apply output_path_relative, Hdir|].
  destruct (String.prefix "/" name1) eqn:H1;
    destruct (String.prefix "/" name2) eqn:H2.
  - rewrite !output_path_absolute by assumption. apply append_cancel_r.
  - rewrite (output_path_absolute _ _ H1), (output_path_relative _ _ Hdir H2).
    intros H. apply (f_equal (String.prefix "/")) in H.
    rewrite prefix_slash_png, H1 in H. discriminate H.
  - rewrite (output_path_relative _ _ Hdir H1), (output_path_absolute _ _ H2).
    intros H. apply (f_equal (String.prefix "/")) in H.
    rewrite prefix_slash_png, H2 in H. discriminate H.
  - rewrite !output_path_relative by assumption.
    intros H. apply String.app_inj in H. apply (append_cancel_r _ _ _ H).
Qed.

Section Coverage.

Variable env : Env.

(** ** One request, with its verdict and its file *)

Lemma verdicts_app (tr1 tr2 : list Event) :
  verdicts (tr1 ++ tr2) = verdicts tr1 ++ verdicts tr2.
Proof. apply omap_app. Qed.

Lemma targets_app (tr1 tr2 : list Event) :
  targets (tr1 ++ tr2) = targets tr1 ++ targets tr2.
Proof. apply omap_app. Qed.

Lemma inputs_app (tr1 tr2 : list Event) :
  inputs (tr1 ++ tr2) = inputs tr1 ++ inputs tr2.
Proof. apply omap_app. Qed.

Lemma after_call_quiet (tail : list Event) :
  forallb after_call tail = true -> targets tail = [] /\ inputs tail = [].
Proof.
  induction tail as [|e tail IH]; [split; reflexivity|].
  cbn [forallb]. intros H. apply andb_prop in H as [He Htail].
  destruct (IH Htail) as (Ht & Hi). unfold targets, inputs in *.
  destruct e as [l| | | | | |]; try discriminate He;
    cbn; rewrite ?Ht, ?Hi; split; reflexivity.
Qed.

Lemma generate_image_ledger self prompt filename width height cfg_scale seed w :
  let body := JObj (build_request_body prompt width height cfg_scale seed) in
  let path := output_path_of self filename in
  exists result fs' tail,
    generate_image env self prompt filename width height cfg_scale seed w =
      (Ret result,
       mkWorld fs' (trace w ++ call_events self prompt filename body ++ tail))
    /\ forallb after_call tail = true
    /\ verdicts tail = [truthy result]
    /\ opens tail `sublist_of` [path]
    /\ (forall other, other <> path -> fs' !! other = fs w !! other)
    /\ (truthy result = true ->
        result = Some path
        /\ exists image_data,
            outcome_of env (answer_at env self prompt filename body w)
            = Success image_data
            /\ fs' !! path = Some image_data)
    /\ (truthy result = false -> result = None).
Proof.
  intros body path.
  pose proof (generate_image_cases env self prompt filename width height
                cfg_scale seed w) as Hcases. cbv zeta in Hcases.
  fold body path in Hcases. rewrite Hcases. cbn [trace].
  destruct (outcome_of env _) as [image_data| |reason].
  - destruct (open_write env _ path image_data) as [|e|e kept];
      eexists _, _, _; rewrite <- app_assoc;
      (split; [reflexivity|]); (split; [reflexivity|]).
    + subst path. rewrite truthy_output_path.
      split; [reflexivity|]. split; [reflexivity|].
      split; [intros other Hother; apply lookup_insert_ne; congruence|].
      split; [|discriminate].
      intros _. split; [reflexivity|]. exists image_data.
      split; [reflexivity | apply lookup_insert_eq].
    + split; [reflexivity|]. split; [reflexivity|].
      split; [reflexivity|]. split; [discriminate | reflexivity].
    + split; [reflexivity|]. split; [reflexivity|].
      split; [intros other Hother; apply lookup_insert_ne; congruence|].
      split; [discriminate | reflexivity].
  - eexists _, _, _; rewrite <- app_assoc.
    split; [reflexivity|]. split; [reflexivity|]. split; [reflexivity|].
    split; [apply sublist_nil_l|]. split; [reflexivity|].
    split; [discriminate | reflexivity].
  - eexists _, _, _; rewrite <- app_assoc.
    split; [reflexivity|]. split; [reflexivity|]. split; [reflexivity|].
    split; [apply sublist_nil_l|]. split; [reflexivity|].
    split; [discriminate | reflexivity].
Qed.

(** ** The loop, with its verdicts and its files *)

Lemma successes_app (vs1 vs2 : list bool) :
  successes (vs1 ++ vs2) = successes vs1 + successes vs2.
Proof. unfold successes. rewrite List.filter_app, length_app. reflexivity. Qed.

Lemma failures_app (vs1 vs2 : list bool) :
  failures (vs1 ++ vs2) = failures vs1 + failures vs2.
Proof. unfold failures. rewrite List.filter_app, length_app. reflexivity. Qed.

Lemma successes_failures (vs : list bool) :
  successes vs + failures vs = length vs.
Proof.
  induction vs as [|v vs IH]; [reflexivity|].
  change (v :: vs) with ([v] ++ vs).
  rewrite successes_app, failures_app, length_app, <- IH.
  destruct v; cbn; lia.
Qed.

Lemma pause_step (delay_seconds : Z) (i total : nat) (w : World) :
  (0 <= delay_seconds)%Z ->
  (if Nat.ltb i total then
     print (LnWaiting delay_seconds);;
     time_sleep delay_seconds
   else ret tt) w
  = (Ret tt,
     mkWorld (fs w)
       (trace w ++ if Nat.ltb i total
                   then [EvPrint (LnWaiting delay_seconds);
                         EvSleep delay_seconds]
                   else [])).
Proof.
  intros Hdelay. destruct (Nat.ltb i total).
  - rewrite (pause_returns delay_seconds w Hdelay). flatten_world.
  - unfold ret. rewrite app_nil_r. destruct w; reflexivity.
Qed.

Lemma for_each_prompt_ledger self delay_seconds total :
  (0 <= delay_seconds)%Z ->
  forall rest i s f w,
    exists s' f' fs' evs,
      for_each_prompt env self delay_seconds total i rest s f w =
        (Ret (s', f'), mkWorld fs' (trace w ++ evs))
      /\ s' = s + successes (verdicts evs)
      /\ f' = f + failures (verdicts evs)
      /\ length (verdicts evs) = length rest
      /\ opens evs `sublist_of` map (job_path self) rest
      /\ (forall p, p ∉ map (job_path self) rest -> fs' !! p = fs w !! p)
      /\ Forall (fun t => t = (model_id self, "application/json")) (targets evs)
      /\ inputs evs = [].
Proof.
  intros Hdelay rest.
  induction rest as [|job rest IH]; intros i s f w.
  - exists s, f, (fs w), []. rewrite app_nil_r. destruct w.
    cbn. split; [reflexivity|]. split; [lia|]. split; [lia|].
    split; [reflexivity|]. split; [apply sublist_nil_l|].
    split; [reflexivity|]. split; [constructor | reflexivity].
  - cbn [for_each_prompt]. rewrite bind_print.
    set (w1 := log (EvPrint (LnProgress i total (description job))) w).
    destruct (generate_image_ledger self (prompt job) (filename job)
                1024 1024 8%float (Some 42%Z) w1)
      as (result & fs1 & tail & Hgen & Htail & Hverdict & Hopen & Hframe & _).
    fold (request_of job) in Hgen. fold (job_path self job) in Hopen, Hframe.
    rewrite (bind_returns _ _ _ _ _ Hgen).
    destruct (after_call_quiet tail Htail) as (Htargets & Hinputs).
    cbv zeta.
    rewrite (bind_returns _ _ _ _ _ (pause_step delay_seconds i total _ Hdelay)).
    cbn [fs trace].
    set (pause := if Nat.ltb i total
                  then [EvPrint (LnWaiting delay_seconds); EvSleep delay_seconds]
                  else []).
    assert (Hpause : verdicts pause = [] /\ opens pause = []
                     /\ targets pause = [] /\ inputs pause = [])
      by (subst pause; destruct (Nat.ltb i total); repeat split).
    destruct Hpause as (Hpv & Hpo & Hpt & Hpi).
    match goal with
    | |- context [for_each_prompt _ _ _ _ _ _ ?s1 ?f1 ?w0] =>
        destruct (IH (S i) s1 f1 w0)
          as (s' & f' & fs' & evs & Hrun & Hs & Hf & Hlen & Hopens & Hfiles
              & Hall & Hin)
    end.
    cbn [fs trace] in Hrun, Hfiles.
    exists s', f', fs',
      ([EvPrint (LnProgress i total (description job))]
       ++ call_events self (prompt job) (filename job) (request_of job)
       ++ tail ++ pause ++ evs).
    split.
    { rewrite Hrun. subst w1. unfold log. cbn [trace fs].
      rewrite <- !app_assoc. reflexivity. }
    rewrite !verdicts_app, !opens_app, !targets_app, !inputs_app.
    rewrite Hverdict, Hpv, Hpo, Hpt, Hpi, Htargets, Hinputs, Hin.
    cbn [verdicts opens targets inputs call_events omap list_omap app].
    change (truthy result :: verdicts evs)
      with ([truthy result] ++ verdicts evs).
    rewrite successes_app, failures_app.
    split; [rewrite Hs; destruct (truthy result); cbn; lia|].
    split; [rewrite Hf; destruct (truthy result); cbn; lia|].
    split; [rewrite length_app; cbn [length]; rewrite Hlen; reflexivity|].
    split.
    { cbn [map]. change (job_path self job :: map (job_path self) rest)
        with ([job_path self job] ++ map (job_path self) rest).
      apply sublist_app; assumption. }
    split.
    { intros p Hp. cbn [map] in Hp. apply not_elem_of_cons in Hp as [Hne Hp].
      rewrite (Hfiles p Hp). rewrite (Hframe p Hne). reflexivity. }
    split; [|reflexivity].
    apply Forall_cons. split; [reflexivity | exact Hall].
Qed.

Lemma run_batch_ledger self jobs delay_seconds w :
  (0 <= delay_seconds)%Z ->
  exists s f fs' body,
    run_batch env self jobs delay_seconds w =
      (Ret (s, f),
       mkWorld fs'
         (trace w ++ batch_header self jobs ++ body ++ batch_footer self s f))
    /\ s = successes (verdicts body)
    /\ f = failures (verdicts body)
    /\ length (verdicts body) = length jobs
    /\ opens body `sublist_of` map (job_path self) jobs
    /\ (forall p, p ∉ map (job_path self) jobs -> fs' !! p = fs w !! p)
    /\ Forall (fun t => t = (model_id self, "application/json")) (targets body)
    /\ inputs body = [].
Proof.
  intros Hdelay. unfold run_batch. rewrite !bind_print.
  match goal with
  | |- context [bind (for_each_prompt _ _ _ _ _ _ _ _) _ ?w0] => set (w1 := w0)
  end.
  destruct (for_each_prompt_ledger self delay_seconds (length jobs) Hdelay
              jobs 1 0 0 w1)
    as (s & f & fs' & body & Hrun & Hs & Hf & Hrest).
  rewrite (bind_returns _ _ _ _ _ Hrun). rewrite !bind_print.
  exists s, f, fs', body.
  split; [subst w1; unfold batch_header, batch_footer; flatten_world|].
  split; [exact Hs|]. split; [exact Hf|]. exact Hrest.
Qed.

(** X2: the counters a batch returns are the numbers of verdict lines it
    printed: succeeded counts the jobs reported as saved, failed those
    reported as without image or in error, one verdict per job; and the
    summary printed at the end shows these same two numbers. *)
Theorem batch_counters_match_the_log self jobs delay_seconds w :
  (0 <= delay_seconds)%Z ->
  exists succeeded failed w' body,
    run_batch env self jobs delay_seconds w = (Ret (succeeded, failed), w')
    /\ trace w'
       = trace w ++ batch_header self jobs ++ body
         ++ batch_footer self succeeded failed
    /\ length (verdicts body) = length jobs
    /\ succeeded = successes (verdicts body)
    /\ failed = failures (verdicts body)
    /\ verdicts (trace w') = verdicts (trace w) ++ verdicts body.
Proof.
  intros Hdelay.
  destruct (run_batch_ledger self jobs delay_seconds w Hdelay)
    as (s & f & fs' & body & Hrun & Hs & Hf & Hlen & _).
  eexists s, f, _, body. split; [exact Hrun|]. cbn [trace].
  split; [reflexivity|]. split; [exact Hlen|].
  split; [exact Hs|]. split; [exact Hf|].
  rewrite !verdicts_app. cbn. rewrite app_nil_r. reflexivity.
Qed.

(** X3: a batch opens no file but the output files of its jobs, in job
    order, leaves every other file as it was, and never reads the
    keyboard. *)
Theorem batch_touches_only_its_output_files self jobs delay_seconds w :
  (0 <= delay_seconds)%Z ->
  exists counts w' evs,
    run_batch env self jobs delay_seconds w = (Ret counts, w')
    /\ trace w' = trace w ++ evs
    /\ opens evs `sublist_of` map (job_path self) jobs
    /\ (forall p, p ∉ map (job_path self) jobs -> fs w' !! p = fs w !! p)
    /\ inputs evs = [].
Proof.
  intros Hdelay.
  destruct (run_batch_ledger self jobs delay_seconds w Hdelay)
    as (s & f & fs' & body & Hrun & _ & _ & _ & Hopens & Hfiles & _ & Hin).
  eexists (s, f), _, _. split; [exact Hrun|]. cbn [trace fs].
  split; [reflexivity|].
  rewrite !opens_app, !inputs_app, Hin. cbn. rewrite app_nil_r.
  split; [exact Hopens|]. split; [exact Hfiles | reflexivity].
Qed.

Lemma request_of_config (job : PromptData) :
  config_of_body (request_of job) "seed" = Some (JInt 42)
  /\ config_of_body (request_of job) "width" = Some (JInt 1024)
  /\ config_of_body (request_of job) "height" = Some (JInt 1024)
  /\ config_of_body (request_of job) "cfgScale" = Some (JFloat 8)
  /\ config_of_body (request_of job) "numberOfImages" = Some (JInt 1).
Proof. repeat split. Qed.

(** X4: every remote call of a batch goes to the generator's model with
    content type application/json, and carries the same settings whatever
    the job: seed 42, 1024 by 1024, guidance scale 8.0, one image. *)
Theorem batch_calls_share_their_settings self jobs delay_seconds w :
  (0 <= delay_seconds)%Z ->
  exists counts w' evs,
    run_batch env self jobs delay_seconds w = (Ret counts, w')
    /\ trace w' = trace w ++ evs
    /\ Forall (fun t => t = (model_id self, "application/json")) (targets evs)
    /\ length (targets evs) = length jobs
    /\ Forall (fun body =>
                 config_of_body body "seed" = Some (JInt 42)
                 /\ config_of_body body "width" = Some (JInt 1024)
                 /\ config_of_body body "height" = Some (JInt 1024)
                 /\ config_of_body body "cfgScale" = Some (JFloat 8)
                 /\ config_of_body body "numberOfImages" = Some (JInt 1))
              (calls evs).
Proof.
  intros Hdelay.
  destruct (run_batch_ledger self jobs delay_seconds w Hdelay)
    as (s & f & fs' & body & Hrun & _ & _ & _ & _ & _ & Htargets & _).
  destruct (run_batch_run env self jobs delay_seconds w Hdelay)
    as (s0 & f0 & fs0 & evs & Hrun0 & _ & Hcalls & _).
  rewrite Hrun0 in Hrun. injection Hrun as _ _ _ Hevs.
  apply app_inv_head in Hevs.
  eexists (s0, f0), _, evs. split; [exact Hrun0|]. cbn [trace].
  split; [reflexivity|].
  assert (Ht : targets evs = targets body).
  { rewrite Hevs. unfold targets. cbn. rewrite omap_app. cbn.
    apply app_nil_r. }
  assert (Hlen : length (targets evs) = length (calls evs)).
  { clear. unfold targets, calls.
    induction evs as [|e evs IH]; [reflexivity|].
    destruct e; cbn; rewrite ?IH; try reflexivity; exact IH. }
  rewrite Ht. split; [exact Htargets|].
  rewrite <- Ht, Hlen, Hcalls, length_map. split; [reflexivity|].
  apply Forall_forall. intros b Hb.
  apply list_elem_of_fmap in Hb as (job & -> & _).
  apply request_of_config.
Qed.

(** ** The delay at the edges *)

(** X5: with no job or one job the batch never sleeps, so it returns for
    every delay, a negative one included: an empty list gives (0, 0) and no
    remote call, one job gives its single call and nothing after it. *)
Theorem short_batch_never_sleeps self jobs delay_seconds w :
  length jobs <= 1 ->
  exists succeeded failed w',
    run_batch env self jobs delay_seconds w = (Ret (succeeded, failed), w')
    /\ succeeded + failed = length jobs
    /\ pacing (trace w') = pacing (trace w) ++ map (fun job => inl (request_of job)) jobs.
Proof.
  intros Hlen. destruct jobs as [|job [|job' jobs]]; [| |cbn in Hlen; lia].
  - eexists 0, 0, _. split; [reflexivity|]. split; [reflexivity|].
    cbn [trace log fs]. rewrite !pacing_app. cbn. rewrite !app_nil_r.
    reflexivity.
  - unfold run_batch. rewrite !bind_print. cbn [length].
    match goal with
    | |- context [bind (for_each_prompt _ _ _ _ _ _ _ _) _ ?w0] => set (w0' := w0)
    end.
    destruct (generate_image_run env self (prompt job) (filename job)
                1024 1024 8%float (Some 42%Z)
                (log (EvPrint (LnProgress 1 1 (description job))) w0'))
      as (result & fs1 & tail & Hgen & Htail & _).
    fold (request_of job) in Hgen.
    destruct (after_call_silent tail Htail) as (_ & Hp & _).
    assert (Hloop :
      for_each_prompt env self delay_seconds 1 1 [job] 0 0 w0'
      = (Ret (if truthy result then 1 else 0, if truthy result then 0 else 1),
         mkWorld fs1
           (trace w0'
            ++ [EvPrint (LnProgress 1 1 (description job))]
            ++ call_events self (prompt job) (filename job) (request_of job)
            ++ tail))).
    { cbn [for_each_prompt]. rewrite bind_print.
      rewrite (bind_returns _ _ _ _ _ Hgen).
      change (Nat.ltb 1 1) with false. cbv iota zeta.
      unfold bind, ret, log. cbn [trace fs].
      rewrite <- !app_assoc. reflexivity. }
    rewrite (bind_returns _ _ _ _ _ Hloop). rewrite !bind_print.
    eexists _, _, _. split; [reflexivity|].
    split; [destruct (truthy result); reflexivity|].
    subst w0'. unfold ret, log. cbn [trace fs snd].
    rewrite !pacing_app, Hp. cbn. rewrite !app_nil_r. reflexivity.
Qed.

(** X6: a negative delay with two or more jobs stops the batch at its first
    pause: [time.sleep] raises [ValueError], nothing catches it, and the
    batch ends with that exception after the first job's call, without
    sleeping and without a summary. *)
Theorem negative_delay_stops_after_first_job
    self job1 job2 jobs delay_seconds w :
  (delay_seconds < 0)%Z ->
  exists w',
    run_batch env self (job1 :: job2 :: jobs) delay_seconds w
    = (Raise (ValueError "sleep length must be non-negative"), w')
    /\ pacing (trace w') = pacing (trace w) ++ [inl (request_of job1)]
    /\ last (trace w') = Some (EvPrint (LnWaiting delay_seconds)).
Proof.
  intros Hdelay. unfold run_batch. rewrite !bind_print. cbn [length].
  match goal with
  | |- context [bind (for_each_prompt _ _ _ _ _ _ _ _) _ ?w0] => set (w0' := w0)
  end.
  destruct (generate_image_run env self (prompt job1) (filename job1)
              1024 1024 8%float (Some 42%Z)
              (log (EvPrint (LnProgress 1 (S (S (length jobs)))
                               (description job1))) w0'))
    as (result & fs1 & tail & Hgen & Htail & _).
  fold (request_of job1) in Hgen.
  destruct (after_call_silent tail Htail) as (_ & Hp & _).
  assert (Hloop :
    for_each_prompt env self delay_seconds (S (S (length jobs))) 1
      (job1 :: job2 :: jobs) 0 0 w0'
    = (Raise (ValueError "sleep length must be non-negative"),
       mkWorld fs1
         (trace w0'
          ++ [EvPrint (LnProgress 1 (S (S (length jobs))) (description job1))]
          ++ call_events self (prompt job1) (filename job1) (request_of job1)
          ++ tail ++ [EvPrint (LnWaiting delay_seconds)]))).
  { cbn [for_each_prompt]. rewrite bind_print.
    rewrite (bind_returns _ _ _ _ _ Hgen).
    change (Nat.ltb 1 (S (S (length jobs)))) with true. cbv iota zeta.
    unfold bind at 1. rewrite bind_print. unfold time_sleep.
    destruct (Z.ltb_spec delay_seconds 0) as [_|Hge]; [|lia].
    unfold log. cbn [trace fs]. rewrite <- !app_assoc. reflexivity. }
  unfold bind at 1. rewrite Hloop.
  eexists. split; [reflexivity|].
  subst w0'. unfold log. cbn [trace fs].
  split.
  - rewrite !pacing_app, Hp. cbn. rewrite !app_nil_r. reflexivity.
  - rewrite !app_assoc. apply last_snoc.
Qed.

(** ** The shapes of a response *)

Lemma generate_image_of_outcome
    self prompt filename width height cfg_scale seed w (reason : string) :
  let body := JObj (build_request_body prompt width height cfg_scale seed) in
  outcome_of env (answer_at env self prompt filename body w) = Failure reason ->
  fst (generate env self prompt filename width height cfg_scale seed w)
  = Failure reason
  /\ generate_image env self prompt filename width height cfg_scale seed w
     = (Ret None,
        mkWorld (fs w)
          (trace w ++ call_events self prompt filename body
                   ++ [EvPrint (LnError filename reason)])).
Proof.
  intros body Hout.
  pose proof (generate_eq env self prompt filename width height cfg_scale
                seed w) as Hgen. cbv zeta in Hgen. fold body in Hgen.
  rewrite Hgen, Hout. split; [reflexivity|].
  pose proof (generate_image_cases env self prompt filename width height
                cfg_scale seed w) as Hcases. cbv zeta in Hcases.
  fold body in Hcases. rewrite Hcases, Hout. cbn [trace].
  rewrite <- app_assoc. reflexivity.
Qed.

(** X7: a response object without the key [images] is not an error: the
    outcome is [Empty], the line printed is the one for a missing image,
    the failure marker is returned and no file is opened. *)
Theorem response_without_images_key_is_empty
    self prompt filename width height cfg_scale seed w (d : list (string * json)) :
  let body := JObj (build_request_body prompt width height cfg_scale seed) in
  answer_at env self prompt filename body w = Body (JObj d) ->
  dict_get "images" d = None ->
  fst (generate env self prompt filename width height cfg_scale seed w) = Empty
  /\ generate_image env self prompt filename width height cfg_scale seed w
     = (Ret None,
        mkWorld (fs w)
          (trace w ++ call_events self prompt filename body
                   ++ [EvPrint (LnNoImage filename)])).
Proof.
  intros body Hanswer Hkey.
  assert (Hout : outcome_of env (answer_at env self prompt filename body w)
                 = Empty).
  { rewrite Hanswer. cbn [outcome_of]. unfold has_images, py_in.
    rewrite Hkey. reflexivity. }
  pose proof (generate_eq env self prompt filename width height cfg_scale
                seed w) as Hgen. cbv zeta in Hgen. fold body in Hgen.
  rewrite Hgen, Hout. split; [reflexivity|].
  pose proof (generate_image_cases env self prompt filename width height
                cfg_scale seed w) as Hcases. cbv zeta in Hcases.
  fold body in Hcases. rewrite Hcases, Hout. cbn [trace].
  rewrite <- app_assoc. reflexivity.
Qed.

(** X8: only the first image of a response counts.  When the list under
    [images] starts with a string, the outcome is the decoding of that
    string, success or failure, whatever follows it in the list and whatever
    else the response holds. *)
Theorem only_the_first_image_is_used
    self prompt filename width height cfg_scale seed w
    (d : list (string * json)) (first : string) (others : list json) :
  let body := JObj (build_request_body prompt width height cfg_scale seed) in
  answer_at env self prompt filename body w = Body (JObj d) ->
  dict_get "images" d = Some (JArr (JStr first :: others)) ->
  fst (generate env self prompt filename width height cfg_scale seed w)
  = match b64decode env first with
    | inr image_data => Success image_data
    | inl e => Failure (exc_str e)
    end.
Proof.
  intros body Hanswer Hkey.
  pose proof (generate_eq env self prompt filename width height cfg_scale
                seed w) as Hgen. cbv zeta in Hgen. fold body in Hgen.
  rewrite Hgen, Hanswer. cbn [fst outcome_of].
  unfold has_images, decode_first_image, py_in, py_getitem. rewrite Hkey.
  cbn. destruct (b64decode env first); reflexivity.
Qed.

(** X9: a response of the wrong shape is a failure, not a crash.  If the
    parsed body is null, a boolean or a number, or if [images] holds one of
    those, or if the first entry of the list is not a string, the outcome is
    [Failure], the failure marker is returned and storage is untouched. *)
Theorem malformed_response_is_a_failure
    self prompt filename width height cfg_scale seed w :
  let body := JObj (build_request_body prompt width height cfg_scale seed) in
  let answer := answer_at env self prompt filename body w in
  ((exists v, answer = Body v /\ is_scalar v = true)
   \/ (exists d v,
         answer = Body (JObj d)
         /\ dict_get "images" d = Some v /\ is_scalar v = true)
   \/ (exists d x others,
         answer = Body (JObj d)
         /\ dict_get "images" d = Some (JArr (x :: others))
         /\ is_str x = false)) ->
  exists reason w',
    fst (generate env self prompt filename width height cfg_scale seed w)
    = Failure reason
    /\ generate_image env self prompt filename width height cfg_scale seed w
       = (Ret None, w')
    /\ fs w' = fs w
    /\ opens (trace w') = opens (trace w)
    /\ last (trace w') = Some (EvPrint (LnError filename reason)).
Proof.
  intros body answer Hshape.
  assert (Hout : exists reason, outcome_of env answer = Failure reason).
  { destruct Hshape as [(v & -> & Hv)|[(d & v & -> & Hkey & Hv)
                                     |(d & x & others & -> & Hkey & Hx)]].
    - destruct v; try discriminate Hv; eexists; reflexivity.
    - cbn [outcome_of]. unfold has_images, py_in, py_getitem.
      rewrite Hkey. destruct v; try discriminate Hv; eexists; reflexivity.
    - cbn [outcome_of]. unfold has_images, decode_first_image, py_in,
        py_getitem. rewrite Hkey. cbn.
      destruct x; try discriminate Hx; eexists; reflexivity. }
  destruct Hout as [reason Hout]. subst answer.
  destruct (generate_image_of_outcome self prompt filename width height
              cfg_scale seed w reason Hout) as [Hgen Hrun].
  eexists reason, _. split; [exact Hgen|]. split; [exact Hrun|].
  cbn [fs trace]. split; [reflexivity|].
  split; [|rewrite app_assoc; apply last_snoc].
  rewrite !opens_app. cbn. rewrite !app_nil_r. reflexivity.
Qed.

(** ** What a request returns and what it prints *)

(** X10: [generate_image] prints exactly one verdict, and the value it
    returns agrees with it: a path exactly when the verdict is "saved".  The
    path is never the empty string, so the test [if result] of the callers
    holds exactly when a path was returned. *)
Theorem returned_path_agrees_with_verdict
    self prompt filename width height cfg_scale seed w :
  exists result w',
    generate_image env self prompt filename width height cfg_scale seed w
    = (Ret result, w')
    /\ verdicts (trace w') = verdicts (trace w) ++ [truthy result]
    /\ (truthy result = true <-> result = Some (output_path_of self filename))
    /\ (truthy result = false <-> result = None).
Proof.
  destruct (generate_image_ledger self prompt filename width height cfg_scale
              seed w)
    as (result & fs' & tail & Hgen & _ & Hverdict & _ & _ & Hyes & Hno).
  eexists result, _. split; [exact Hgen|]. cbn [trace].
  rewrite !verdicts_app, Hverdict. cbn. split; [reflexivity|].
  split; split.
  - intros H. apply (Hyes H).
  - intros ->. apply truthy_output_path.
  - exact Hno.
  - intros ->. reflexivity.
Qed.

(** X11: the test generation makes one remote call, with the test prompt
    and seed 123, reads nothing from the keyboard and leaves every file but
    [<output_dir>/test_shirt.png] as it was.  It returns [True] exactly when
    the response decoded to image bytes and the file was opened and written
    without an exception: then the file holds those bytes and the last line
    printed is the one for success.  In every other case it returns [False]
    and the last line is the one for failure; the files are then all as they
    were, unless the write raised after the file had been opened, in which
    case the file holds what reached it before the exception. *)
Theorem test_image_reports_what_was_saved self w :
  let path := output_path_of self "test_shirt" in
  let w0 := log (EvPrint LnTesting) w in
  let outcome :=
    fst (generate env self test_prompt "test_shirt" 1024 1024 8%float
           (Some 123%Z) w0) in
  let w1 :=
    snd (generate env self test_prompt "test_shirt" 1024 1024 8%float
           (Some 123%Z) w0) in
  exists ok w',
    generate_single_test_image env self w = (Ret ok, w')
    /\ calls (trace w') = calls (trace w) ++ [test_request]
    /\ config_of_body test_request "seed" = Some (JInt 123)
    /\ prompt_of_body test_request = Some test_prompt
    /\ inputs (trace w') = inputs (trace w)
    /\ (forall p, p <> path -> fs w' !! p = fs w !! p)
    /\ last (trace w')
       = Some (EvPrint (if ok : bool then LnTestOk else LnTestFailed))
    /\ (ok = true <->
        exists image_data,
          outcome = Success image_data
          /\ open_write env (trace w1) path image_data = Written)
    /\ match outcome with
       | Success image_data =>
           match open_write env (trace w1) path image_data with
           | Written => ok = true /\ fs w' = <[path := image_data]> (fs w)
           | OpenRaises _ => ok = false /\ fs w' = fs w
           | WriteRaises _ kept => ok = false /\ fs w' = <[path := kept]> (fs w)
           end
       | Empty | Failure _ => ok = false /\ fs w' = fs w
       end.
Proof.
  intros path w0 outcome w1. subst outcome w1.
  unfold generate_single_test_image. rewrite bind_print.
  fold w0. fold test_prompt.
  pose proof (generate_eq env self test_prompt "test_shirt" 1024 1024 8%float
                (Some 123%Z) w0) as Hout.
  cbv zeta in Hout. fold test_request in Hout. rewrite Hout. clear Hout.
  pose proof (generate_image_cases env self test_prompt "test_shirt" 1024 1024
                8%float (Some 123%Z) w0) as Hcases.
  cbv zeta in Hcases. fold test_request path in Hcases.
  cbn [fst snd trace fs] in *. revert Hcases.
  destruct (outcome_of env _) as [image_data| |reason].
  - destruct (open_write env _ path image_data) as [|e|e kept] eqn:Hopen;
      intros Hcases; rewrite (bind_returns _ _ _ _ _ Hcases);
      [replace (truthy (Some path)) with true
         by (symmetry; apply truthy_output_path)|cbn [truthy]..];
      rewrite bind_print; eexists _, _; (split; [reflexivity|]);
      subst w0; unfold ret, log; cbn [trace fs];
      rewrite !calls_app, !inputs_app;
      cbn [calls inputs omap list_omap call_events app]; rewrite ?app_nil_r;
      (split; [reflexivity|]); (split; [reflexivity|]);
      (split; [reflexivity|]); (split; [reflexivity|]).
    + split; [intros p Hp; apply lookup_insert_ne; congruence|].
      split; [rewrite last_app; reflexivity|].
      split; [|split; reflexivity].
      split; [intros _; exists image_data; split; [reflexivity|exact Hopen]
             |reflexivity].
    + split; [reflexivity|].
      split; [rewrite last_app; reflexivity|].
      split; [|split; reflexivity].
      split; [discriminate|].
      intros (data & Heq & Hw). injection Heq as <-.
      pose proof (eq_trans (eq_sym Hopen) Hw) as Habs. discriminate Habs.
    + split; [intros p Hp; apply lookup_insert_ne; congruence|].
      split; [rewrite last_app; reflexivity|].
      split; [|split; reflexivity].
      split; [discriminate|].
      intros (data & Heq & Hw). injection Heq as <-.
      pose proof (eq_trans (eq_sym Hopen) Hw) as Habs. discriminate Habs.
  - intros Hcases; rewrite (bind_returns _ _ _ _ _ Hcases); cbn [truthy];
      rewrite bind_print; eexists _, _; (split; [reflexivity|]);
      subst w0; unfold ret, log; cbn [trace fs];
      rewrite !calls_app, !inputs_app;
      cbn [calls inputs omap list_omap call_events app]; rewrite ?app_nil_r;
      (split; [reflexivity|]); (split; [reflexivity|]);
      (split; [reflexivity|]); (split; [reflexivity|]).
    split; [reflexivity|].
    split; [rewrite last_app; reflexivity|].
    split; [|split; reflexivity].
    split; [discriminate|]. intros (data & Heq & _). discriminate.
  - intros Hcases; rewrite (bind_returns _ _ _ _ _ Hcases); cbn [truthy];
      rewrite bind_print; eexists _, _; (split; [reflexivity|]);
      subst w0; unfold ret, log; cbn [trace fs];
      rewrite !calls_app, !inputs_app;
      cbn [calls inputs omap list_omap call_events app]; rewrite ?app_nil_r;
      (split; [reflexivity|]); (split; [reflexivity|]);
      (split; [reflexivity|]); (split; [reflexivity|]).
    split; [reflexivity|].
    split; [rewrite last_app; reflexivity|].
    split; [|split; reflexivity].
    split; [discriminate|]. intros (data & Heq & _). discriminate.
Qed.

(** ** The modes of [main] *)

Lemma pauses_app (p1 p2 : list (json + Z)) :
  pauses (p1 ++ p2) = pauses p1 ++ pauses p2.
Proof. apply omap_app. Qed.

Lemma pacing_at_choice (w : World) :
  pacing (trace (at_choice w)) = pacing (trace w).
Proof.
  unfold at_choice. cbn [trace]. rewrite pacing_app. cbn. apply app_nil_r.
Qed.

Lemma inputs_at_choice (w : World) :
  inputs (trace (at_choice w)) = inputs (trace w) ++ [choice_prompt].
Proof. unfold at_choice. cbn [trace]. rewrite inputs_app. reflexivity. Qed.

(** X12: choice 1 runs the test generation and nothing else: [main] ends in
    the state the test left, having made the test's single remote call,
    never slept, and read the keyboard once. *)
Theorem choice_one_runs_only_the_test w :
  chooses env w "1" ->
  exists ok w',
    generate_single_test_image env the_generator (at_choice w) = (Ret ok, w')
    /\ main env w = (Ret tt, w')
    /\ calls (trace w') = calls (trace w) ++ [test_request]
    /\ pauses (pacing (trace w')) = pauses (pacing (trace w))
    /\ inputs (trace w') = inputs (trace w) ++ [choice_prompt].
Proof.
  intros (Hclient & Hdirs & Hchoice).
  rewrite (main_cases env), Hclient, Hdirs. cbv zeta. rewrite Hchoice.
  change (String.eqb "1" "1") with true. cbv iota.
  destruct (generate_single_test_image_run env the_generator (at_choice w))
    as (result & fs1 & tail & Htest & Htail).
  rewrite (bind_returns _ _ _ _ _ Htest).
  destruct (after_call_silent tail Htail) as (Hc & Hp & _).
  destruct (after_call_quiet tail Htail) as (_ & Hi).
  eexists _, _. split; [exact Htest|]. split; [reflexivity|].
  cbn [trace].
  rewrite !calls_app, !pacing_app, !inputs_app, Hc, Hp, Hi.
  rewrite calls_at_choice, pacing_at_choice, inputs_at_choice.
  rewrite !pauses_app. cbn. rewrite !app_nil_r. repeat split.
Qed.

(** X13: choice 2 runs the batch and nothing else: [main] ends in the state
    the batch left, having made one remote call per entry of [prompts] in
    order, none for the test, with nine pauses of the default 2 seconds. *)
Theorem choice_two_runs_only_the_batch w :
  chooses env w "2" ->
  exists counts w',
    generate_workshop_images env the_generator 2 (at_choice w)
    = (Ret counts, w')
    /\ main env w = (Ret tt, w')
    /\ fst counts + snd counts = 10
    /\ calls (trace w') = calls (trace w) ++ map request_of prompts
    /\ pauses (pacing (trace w')) = pauses (pacing (trace w)) ++ replicate 9 2%Z.
Proof.
  intros (Hclient & Hdirs & Hchoice).
  rewrite (main_cases env), Hclient, Hdirs. cbv zeta. rewrite Hchoice.
  change (String.eqb "2" "1") with false.
  change (String.eqb "2" "2") with true. cbv iota.
  unfold generate_workshop_images.
  destruct (run_batch_run env the_generator prompts 2 (at_choice w) ltac:(lia))
    as (s & f & fs' & evs & Hrun & Hcount & Hcalls & Hpace & _).
  rewrite (bind_returns _ _ _ _ _ Hrun).
  eexists (s, f), _. split; [exact Hrun|]. split; [reflexivity|].
  cbn [trace fst snd]. split; [exact Hcount|].
  rewrite calls_app, pacing_app, pauses_app, calls_at_choice, pacing_at_choice.
  rewrite Hcalls, Hpace, paced_pauses. repeat split.
Qed.

(** X14: any other choice does nothing: once the generator is constructed
    and the answer, stripped of the white space [str.strip] removes (the ASCII
    and the other Unicode white-space characters), is none of 1, 2 and 3,
    [main] prints that the choice is invalid and returns: no remote call, no
    file opened, the files as they were. *)
Theorem invalid_choice_does_nothing w :
  client_answer env w = None ->
  makedirs_answer env w = None ->
  choice_at env w <> "1" ->
  choice_at env w <> "2" ->
  choice_at env w <> "3" ->
  main env w
  = (Ret tt,
     mkWorld (fs w)
       (trace w ++ menu_events
        ++ [EvInput choice_prompt; EvPrint LnInvalidChoice])).
Proof.
  intros Hclient Hdirs H1 H2 H3.
  rewrite (main_cases env), Hclient, Hdirs. cbv zeta.
  apply String.eqb_neq in H1, H2, H3. rewrite H1, H2, H3.
  unfold at_choice, print, log. cbn [fs trace].
  rewrite <- !app_assoc. reflexivity.
Qed.

(** X15: a workshop run writes to ten files and no others.  With the output
    directory [images], the files it opens are among the ten output files
    of [prompts], in that order; these ten paths are pairwise distinct, so
    no job overwrites another job's image; and every other file is left as
    it was. *)
Theorem workshop_run_writes_ten_files self delay_seconds w :
  output_dir self = "images" ->
  (0 <= delay_seconds)%Z ->
  exists counts w' evs,
    generate_workshop_images env self delay_seconds w = (Ret counts, w')
    /\ trace w' = trace w ++ evs
    /\ map (job_path self) prompts = workshop_files
    /\ NoDup workshop_files
    /\ opens evs `sublist_of` workshop_files
    /\ (forall p, p ∉ workshop_files -> fs w' !! p = fs w !! p).
Proof.
  intros Hdir Hdelay. unfold generate_workshop_images.
  destruct (run_batch_ledger self prompts delay_seconds w Hdelay)
    as (s & f & fs' & body & Hrun & _ & _ & _ & Hopens & Hfiles & _).
  assert (Hpaths : map (job_path self) prompts = workshop_files).
  { unfold job_path, output_path_of. rewrite Hdir. reflexivity. }
  rewrite Hpaths in Hopens, Hfiles.
  eexists (s, f), _, _. split; [exact Hrun|]. cbn [trace fs].
  split; [reflexivity|]. split; [exact Hpaths|].
  split; [apply (bool_decide_unpack _); vm_compute; exact I|].
  rewrite !opens_app. cbn. rewrite app_nil_r.
  split; [exact Hopens | exact Hfiles].
Qed.

(** ** Construction *)

(** X16: a generator that [__init__] returns always writes under [images]
    and calls the model [amazon.nova-canvas-v1:0]; the client is created
    first and the directory second, and nothing else happens.  When
    [__init__] raises, it is the exception of [boto3.client], with the
    directory not even attempted, or that of [os.makedirs]; either way no
    file is touched and no remote call made. *)
Theorem init_sets_up_the_generator region w :
  (forall g w',
      __init__ env region w = (Ret g, w') ->
      g = mkGenerator region "amazon.nova-canvas-v1:0" "images"
      /\ fs w' = fs w
      /\ trace w'
         = trace w ++ [ EvClient "bedrock-runtime" region; EvMakedirs "images" ])
  /\ (forall e w',
        __init__ env region w = (Raise e, w') ->
        fs w' = fs w
        /\ calls (trace w') = calls (trace w)
        /\ ((boto3_client env (trace w) "bedrock-runtime" region = Some e
             /\ trace w' = trace w ++ [ EvClient "bedrock-runtime" region ])
            \/ (os_makedirs env
                  (trace w ++ [ EvClient "bedrock-runtime" region ]) "images"
                = Some e
                /\ trace w'
                   = trace w ++ [ EvClient "bedrock-runtime" region;
                                  EvMakedirs "images" ]))).
Proof.
  unfold __init__, bind, make_client, makedirs, ret, log. cbn [trace fs].
  destruct (boto3_client env (trace w) "bedrock-runtime" region) as [e0|].
  - split; [intros g w' H; discriminate H|].
    intros e w' H. injection H as <- <-. cbn [fs trace].
    rewrite calls_app. cbn. rewrite app_nil_r.
    split; [reflexivity|]. split; [reflexivity|]. left. split; reflexivity.
  - destruct (os_makedirs env _ "images") as [e0|].
    + split; [intros g w' H; discriminate H|].
      intros e w' H. injection H as <- <-. cbn [fs trace].
      rewrite <- app_assoc, calls_app. cbn. rewrite app_nil_r.
      split; [reflexivity|]. split; [reflexivity|]. right. split; reflexivity.
    + split; [|intros e w' H; discriminate H].
      intros g w' H. injection H as <- <-. cbn [fs trace].
      rewrite <- app_assoc. repeat split.
Qed.

End Coverage.

(** ** Witnesses of the further properties *)

Lemma output_paths_do_not_collide_witness :
  (String.prefix "/" "a" = false ->
   output_path_of the_generator "a" = "images/" +:+ "a" +:+ ".png")
  /\ (output_path_of the_generator "a" = output_path_of the_generator "b" ->
      "a" = "b").
Proof. apply output_paths_do_not_collide. reflexivity. Defined.

Lemma batch_counters_match_the_log_witness :
  exists succeeded failed w' body,
    run_batch scenario_env the_generator two_jobs 2 empty_world
    = (Ret (succeeded, failed), w')
    /\ trace w'
       = trace empty_world ++ batch_header the_generator two_jobs ++ body
         ++ batch_footer the_generator succeeded failed
    /\ length (verdicts body) = length two_jobs
    /\ succeeded = successes (verdicts body)
    /\ failed = failures (verdicts body)
    /\ verdicts (trace w') = verdicts (trace empty_world) ++ verdicts body.
Proof. apply batch_counters_match_the_log. lia. Defined.

Lemma batch_touches_only_its_output_files_witness :
  exists counts w' evs,
    run_batch scenario_env the_generator two_jobs 2 empty_world
    = (Ret counts, w')
    /\ trace w' = trace empty_world ++ evs
    /\ opens evs `sublist_of` map (job_path the_generator) two_jobs
    /\ (forall p, p ∉ map (job_path the_generator) two_jobs ->
        fs w' !! p = fs empty_world !! p)
    /\ inputs evs = [].
Proof. apply batch_touches_only_its_output_files. lia. Defined.

Lemma batch_calls_share_their_settings_witness :
  exists counts w' evs,
    run_batch scenario_env the_generator two_jobs 2 empty_world
    = (Ret counts, w')
    /\ trace w' = trace empty_world ++ evs
    /\ Forall (fun t => t = (model_id the_generator, "application/json"))
         (targets evs)
    /\ length (targets evs) = length two_jobs
    /\ Forall (fun body =>
                 config_of_body body "seed" = Some (JInt 42)
                 /\ config_of_body body "width" = Some (JInt 1024)
                 /\ config_of_body body "height" = Some (JInt 1024)
                 /\ config_of_body body "cfgScale" = Some (JFloat 8)
                 /\ config_of_body body "numberOfImages" = Some (JInt 1))
              (calls evs).
Proof. apply batch_calls_share_their_settings. lia. Defined.

Lemma short_batch_never_sleeps_witness :
  exists succeeded failed w',
    run_batch working_env the_generator [mkPromptData "a" "x" "only"] (-5)
      empty_world
    = (Ret (succeeded, failed), w')
    /\ succeeded + failed = 1
    /\ pacing (trace w')
       = pacing (trace empty_world)
         ++ [inl (request_of (mkPromptData "a" "x" "only"))].
Proof.
  apply (short_batch_never_sleeps working_env the_generator
           [mkPromptData "a" "x" "only"] (-5) empty_world).
  cbn. lia.
Defined.

Lemma negative_delay_stops_after_first_job_witness :
  exists w',
    run_batch working_env the_generator two_jobs (-1) empty_world
    = (Raise (ValueError "sleep length must be non-negative"), w')
    /\ pacing (trace w')
       = pacing (trace empty_world)
         ++ [inl (request_of (mkPromptData "a" "x" "first"))]
    /\ last (trace w') = Some (EvPrint (LnWaiting (-1))).
Proof.
  apply (negative_delay_stops_after_first_job working_env the_generator
           (mkPromptData "a" "x" "first") (mkPromptData "b" "y" "second") []
           (-1) empty_world).
  lia.
Defined.

Lemma response_without_images_key_is_empty_witness :
  fst (generate missing_key_env the_generator "x" "a" 1024 1024 8%float None
         empty_world) = Empty
  /\ fst (generate_image missing_key_env the_generator "x" "a" 1024 1024
            8%float None empty_world) = Ret None.
Proof.
  destruct (response_without_images_key_is_empty missing_key_env the_generator
              "x" "a" 1024 1024 8%float None empty_world
              [ ("error", JStr "throttled") ] eq_refl eq_refl)
    as [Hout Hrun].
  split; [exact Hout|]. rewrite Hrun. reflexivity.
Defined.

Lemma only_the_first_image_is_used_witness :
  fst (generate two_images_env the_generator "x" "a" 1024 1024 8%float None
         empty_world) = Success [Byte.x00].
Proof.
  exact (only_the_first_image_is_used two_images_env the_generator
           "x" "a" 1024 1024 8%float None empty_world
           [ ("images", JArr [ JStr "AA=="; JStr "not base64" ]) ]
           "AA==" [ JStr "not base64" ] eq_refl eq_refl).
Defined.

Lemma malformed_response_is_a_failure_witness :
  exists reason w',
    fst (generate null_body_env the_generator "x" "a" 1024 1024 8%float None
           empty_world) = Failure reason
    /\ generate_image null_body_env the_generator "x" "a" 1024 1024 8%float
         None empty_world = (Ret None, w')
    /\ fs w' = fs empty_world
    /\ opens (trace w') = opens (trace empty_world)
    /\ last (trace w') = Some (EvPrint (LnError "a" reason)).
Proof.
  apply (malformed_response_is_a_failure null_body_env the_generator
           "x" "a" 1024 1024 8%float None empty_world).
  left. exists JNull. split; reflexivity.
Defined.

Lemma choice_one_runs_only_the_test_witness :
  exists ok w',
    generate_single_test_image mode_one_env the_generator
      (at_choice empty_world) = (Ret ok, w')
    /\ main mode_one_env empty_world = (Ret tt, w')
    /\ calls (trace w') = calls (trace empty_world) ++ [test_request]
    /\ pauses (pacing (trace w')) = pauses (pacing (trace empty_world))
    /\ inputs (trace w') = inputs (trace empty_world) ++ [choice_prompt].
Proof.
  apply choice_one_runs_only_the_test.
  split; [reflexivity|]. split; reflexivity.
Defined.

Lemma choice_two_runs_only_the_batch_witness :
  exists counts w',
    generate_workshop_images mode_two_env the_generator 2
      (at_choice empty_world) = (Ret counts, w')
    /\ main mode_two_env empty_world = (Ret tt, w')
    /\ fst counts + snd counts = 10
    /\ calls (trace w') = calls (trace empty_world) ++ map request_of prompts
    /\ pauses (pacing (trace w'))
       = pauses (pacing (trace empty_world)) ++ replicate 9 2%Z.
Proof.
  apply choice_two_runs_only_the_batch.
  split; [reflexivity|]. split; reflexivity.
Defined.

Lemma invalid_choice_does_nothing_witness :
  main invalid_choice_env empty_world
  = (Ret tt,
     mkWorld (fs empty_world)
       (trace empty_world ++ menu_events
        ++ [EvInput choice_prompt; EvPrint LnInvalidChoice])).
Proof.
  apply invalid_choice_does_nothing;
    first [reflexivity | intros H; vm_compute in H; discriminate H].
Defined.

Lemma workshop_run_writes_ten_files_witness :
  exists counts w' evs,
    generate_workshop_images working_env the_generator 2 empty_world
    = (Ret counts, w')
    /\ trace w' = trace empty_world ++ evs
    /\ map (job_path the_generator) prompts = workshop_files
    /\ NoDup workshop_files
    /\ opens evs `sublist_of` workshop_files
    /\ (forall p, p ∉ workshop_files -> fs w' !! p = fs empty_world !! p).
Proof. apply workshop_run_writes_ten_files; [reflexivity | lia]. Defined.

(** The shapes of X9, run: a number where the image should be. *)
Example number_for_image_is_a_failure :
  fst (generate number_for_image_env the_generator "x" "a" 1024 1024 8%float
         None empty_world)
  = Failure "argument should be a bytes-like object or ASCII string"
  /\ fst (generate_image two_images_env the_generator "x" "a" 1024 1024
            8%float None empty_world) = Ret (Some "images/a.png").
Proof. split; vm_compute; reflexivity. Qed.

(** [strip] removes the white space of Unicode as well as that of ASCII, and
    keeps every other character: an answer of 1 followed by a no-break space
    selects the test generation. *)
Example strip_removes_unicode_white_space :
  strip (of_bytes [49; 194; 160]) = "1"
  /\ strip (of_bytes [227; 128; 128; 32; 50; 10; 226; 128; 138]) = "2"
  /\ strip (of_bytes [32; 194; 161; 32]) = of_bytes [194; 161]
  /\ strip (of_bytes [226; 128; 139; 51]) = of_bytes [226; 128; 139; 51]
  /\ choice_at no_break_space_env empty_world = "1"
  /\ calls (trace (snd (main no_break_space_env empty_world)))
     = [test_request].
Proof. repeat split; vm_compute; reflexivity. Qed.
